(** * Paddy: the OpenAI-compatible chat endpoint, embedded and verified

    A shallow embedding of the request models
    ([app/features/chat/models.py]), the message adapter and response
    builder ([app/shared/openai_adapter.py]), the chat route
    ([app/features/chat/routes.py]) and the domain exception handler
    ([app/core/exceptions.py]).

    Python values are modelled by the types the code annotates them with:
    [str] as [string], [int] as [Z], [X | None] as [option X], a list as
    [list].  A call that can raise returns in a sum; code that logs or
    calls the agent runs in the monad [M], which records what was logged
    and which collaborators were called, in order. *)

From Stdlib Require Import String Ascii List ZArith NArith Lia Bool DecimalString.
Import ListNotations.

Local Open Scope string_scope.
Local Open Scope list_scope.

(** ** Python exceptions *)

Module Py.

(** The exceptions that reach this code.  All of them derive from Python's
    [Exception]: [OtherException cls msg] stands for any exception class
    [cls] that the external agent runtime raises with text [msg]. *)
Inductive exn : Type :=
| ValueError (msg : string)
| TypeError (msg : string)
| HTTPException (status_code : Z) (detail : string)
| OtherException (cls : string) (msg : string).

(** [str(e)]; for an [HTTPException] it is Starlette's
    [f"{status_code}: {detail}"]. *)
Definition exn_str (e : exn) : string :=
  match e with
  | ValueError msg => msg
  | TypeError msg => msg
  | HTTPException code detail =>
      (NilZero.string_of_int (Z.to_int code) ++ ": " ++ detail)%string
  | OtherException _ msg => msg
  end.

(** A computation without side effects that returns or raises. *)
Definition result (A : Type) : Type := (exn + A)%type.

Definition ok {A} (a : A) : result A := inr a.
Definition throw {A} (e : exn) : result A := inl e.

Definition rbind {A B} (r : result A) (k : A -> result B) : result B :=
  match r with
  | inl e => inl e
  | inr a => k a
  end.

(** Python truthiness of a [str | None] value. *)
Definition truthy_str (s : option string) : bool :=
  match s with
  | None => false
  | Some EmptyString => false
  | Some (String _ _) => true
  end.

(** [sep.join(items)] for [sep = ""]: every item has to be a [str]; the
    first [None] met raises [TypeError]. *)
Fixpoint join_empty (items : list (option string)) : result string :=
  match items with
  | [] => ok ""
  | None :: _ => throw (TypeError "sequence item: expected str instance, NoneType found")
  | Some s :: rest => rbind (join_empty rest) (fun tl => ok (s ++ tl)%string)
  end.

(** [x or 0] on an [int | None]. *)
Definition or_zero (x : option Z) : Z :=
  match x with
  | None => 0
  | Some n => if (n =? 0)%Z then 0%Z else n
  end.

End Py.

(** ** Request and response models: [app/features/chat/models.py] *)

Module Models.
Import Py.

(** [ContentPart].  The field [type] is spelt [part_type]; an image
    reference is the dictionary it arrives as, kept as an association
    list. *)
Record ContentPart : Type := {
  part_type : string;
  text : option string;
  image_url : option (list (string * string))
}.

Inductive Role : Type := system | user | assistant.

Definition role_eqb (a b : Role) : bool :=
  match a, b with
  | system, system | user, user | assistant, assistant => true
  | _, _ => false
  end.

(** [content: str | list[ContentPart]]. *)
Inductive Content : Type :=
| Str (s : string)
| Parts (parts : list ContentPart).

Record ChatMessage : Type := {
  role : Role;
  content : Content
}.

(** The condition of the generator in [text_content]:
    [part.type == "text" and part.text]. *)
Definition selected (part : ContentPart) : bool :=
  (part_type part =? "text") && truthy_str (text part).

(** [ChatMessage.text_content]. *)
Definition text_content (self : ChatMessage) : result string :=
  match content self with
  | Str s => ok s
  | Parts parts => join_empty (map text (filter selected parts))
  end.

Record ChatCompletionRequest (float : Type) : Type := {
  model : string;
  messages : list ChatMessage;
  stream : bool;
  temperature : option float;
  max_tokens : option Z;
  top_p : option float;
  frequency_penalty : option float
}.

Arguments model {float} _.
Arguments messages {float} _.
Arguments stream {float} _.
Arguments temperature {float} _.
Arguments max_tokens {float} _.
Arguments top_p {float} _.
Arguments frequency_penalty {float} _.

Record ResponseMessage : Type := {
  rm_role : string;
  rm_content : string
}.

Inductive FinishReason : Type := stop | length_.

Record Choice : Type := {
  index : Z;
  message : ResponseMessage;
  finish_reason : FinishReason
}.

Record Usage : Type := {
  prompt_tokens : Z;
  completion_tokens : Z;
  total_tokens : Z
}.

Record ChatCompletionResponse : Type := {
  id : string;
  object : string;
  created : Z;
  resp_model : string;
  choices : list Choice;
  usage : Usage
}.

(** The constructors with the defaults the classes declare. *)
Definition mkResponseMessage (content : string) : ResponseMessage :=
  {| rm_role := "assistant"; rm_content := content |}.

Definition mkChoice (message : ResponseMessage) : Choice :=
  {| index := 0; message := message; finish_reason := stop |}.

Definition mkChatCompletionResponse (id : string) (created : Z) (model : string)
    (choices : list Choice) (usage : Usage) : ChatCompletionResponse :=
  {| id := id; object := "chat.completion"; created := created;
     resp_model := model; choices := choices; usage := usage |}.

(** *** What the specification says [text_content] computes *)

(** A part is text-typed when its type is the string ["text"]. *)
Definition is_text_part (part : ContentPart) : bool := part_type part =? "text".

(** The text a part carries; a part without text carries none. *)
Definition part_text (part : ContentPart) : string :=
  match text part with
  | Some s => s
  | None => ""
  end.

(** Concatenation, in order, of the text of the text-typed parts. *)
Definition spec_text (c : Content) : string :=
  match c with
  | Str s => s
  | Parts parts => String.concat "" (map part_text (filter is_text_part parts))
  end.

End Models.

(** ** The agent runtime's message types: [pydantic_ai.messages] *)

Module PydanticAI.

Inductive ModelRequestPart : Type := UserPromptPart (content : string).
Inductive ModelResponsePart : Type := TextPart (content : string).

Inductive ModelMessage : Type :=
| ModelRequest (parts : list ModelRequestPart)
| ModelResponse (parts : list ModelResponsePart).

(** [app/core/dependencies.py]: the bundle handed to the agent's tools. *)
Record VaultDependencies : Type := { vault_path : string }.

(** What [result.usage()] exposes. *)
Record RunUsage : Type := {
  request_tokens : option Z;
  response_tokens : option Z;
  usage_total_tokens : option Z
}.

(** The final result of an agent run: [result.data] and [result.usage()]. *)
Record AgentRunResult : Type := {
  data : string;
  run_usage : RunUsage
}.

End PydanticAI.

(** ** Effects: logging and calls to collaborators *)

Module Effects.
Import Py Models PydanticAI.

Inductive LogValue : Type :=
| LStr (s : string)
| LInt (n : Z)
| LBool (b : bool)
| LNone.

Definition log_opt_int (x : option Z) : LogValue :=
  match x with
  | Some n => LInt n
  | None => LNone
  end.

(** What a run leaves behind, in order: the structured log records
    ([logger.info], [logger.error]) and the calls made to the adapter and
    to the agent, with their arguments. *)
Inductive Event : Type :=
| Log (level : string) (event : string) (fields : list (string * LogValue))
| AdapterCalled (messages : list ChatMessage)
| AgentCalled (user_prompt : string) (message_history : list ModelMessage)
    (deps : VaultDependencies).

(** A run: the events it produced and how it ended. *)
Definition M (A : Type) : Type := (list Event * result A)%type.

Definition events {A} (m : M A) : list Event := fst m.
Definition outcome {A} (m : M A) : result A := snd m.

Definition ret {A} (a : A) : M A := ([], inr a).
Definition raise {A} (e : exn) : M A := ([], inl e).
Definition emit (ev : Event) : M unit := ([ev], inr tt).
Definition lift {A} (r : result A) : M A := ([], r).

Definition bind {A B} (m : M A) (k : A -> M B) : M B :=
  match m with
  | (tr, inl e) => (tr, inl e)
  | (tr, inr a) => let (tr', r) := k a in (tr ++ tr', r)
  end.

(** [try: m  except ...: handler e]: [handler e = None] when no [except]
    clause matches [e], which then propagates. *)
Definition try_except {A} (m : M A) (handler : exn -> option (M A)) : M A :=
  match m with
  | (tr, inl e) =>
      match handler e with
      | Some h => let (tr', r) := h in (tr ++ tr', r)
      | None => (tr, inl e)
      end
  | (tr, inr a) => (tr, inr a)
  end.

Definition log_info (event : string) (fields : list (string * LogValue)) : M unit :=
  emit (Log "info" event fields).

Definition log_error (event : string) (fields : list (string * LogValue)) : M unit :=
  emit (Log "error" event fields).

(** The calls a run made to the adapter and to the agent. *)
Definition is_call (ev : Event) : bool :=
  match ev with
  | Log _ _ _ => false
  | AdapterCalled _ => true
  | AgentCalled _ _ _ => true
  end.

Definition is_agent_call (ev : Event) : bool :=
  match ev with
  | AgentCalled _ _ _ => true
  | _ => false
  end.

Definition calls {A} (m : M A) : list Event := filter is_call (events m).
Definition agent_calls {A} (m : M A) : list Event := filter is_agent_call (events m).

(** The status code FastAPI answers a run of a route with: the code of a
    raised [HTTPException], 500 for any other exception, and the route's
    default 200 on return. *)
Definition status_of {A} (m : M A) : Z :=
  match outcome m with
  | inr _ => 200
  | inl (HTTPException code _) => code
  | inl _ => 500
  end.

End Effects.

Declare Scope monad_scope.
Delimit Scope monad_scope with monad.
Notation "x <- m ;; k" := (Effects.bind m (fun x => k))
  (at level 61, m at next level, right associativity) : monad_scope.
Notation "m ;;; k" := (Effects.bind m (fun _ => k))
  (at level 61, right associativity) : monad_scope.
Notation "' pat <- m ;; k" := (Effects.bind m (fun x => match x with pat => k end))
  (at level 61, pat pattern, m at next level, right associativity) : monad_scope.

(** ** The adapter: [app/shared/openai_adapter.py] *)

Module Adapter.
Import Py Models PydanticAI Effects.
Local Open Scope monad_scope.

(** [for x in xs: st = body st x], stopping at the first exception. *)
Fixpoint for_each {A S : Type} (xs : list A) (body : S -> A -> result S) (st : S)
    : result S :=
  match xs with
  | [] => ok st
  | x :: rest => rbind (body st x) (for_each rest body)
  end.

(** The three variables the first loop of [openai_messages_to_pydantic]
    updates. *)
Record Scan : Type := {
  user_prompt : option string;
  system_skipped : Z;
  prior_messages : list ChatMessage
}.

Definition scan_init : Scan :=
  {| user_prompt := None; system_skipped := 0; prior_messages := [] |}.

Definition is_None {A} (x : option A) : bool :=
  match x with
  | None => true
  | Some _ => false
  end.

(** The body of [for msg in reversed(messages)]. *)
Definition scan_step (st : Scan) (msg : ChatMessage) : result Scan :=
  if role_eqb (role msg) user && is_None (user_prompt st) then
    rbind (text_content msg) (fun t =>
      ok {| user_prompt := Some t;
            system_skipped := system_skipped st;
            prior_messages := prior_messages st |})
  else if role_eqb (role msg) system then
    ok {| user_prompt := user_prompt st;
          system_skipped := system_skipped st + 1;
          prior_messages := prior_messages st |}
  else
    ok {| user_prompt := user_prompt st;
          system_skipped := system_skipped st;
          prior_messages := prior_messages st ++ [msg] |}.

(** The body of [for msg in prior_messages]. *)
Definition history_step (history : list ModelMessage) (msg : ChatMessage)
    : result (list ModelMessage) :=
  match role msg with
  | user =>
      rbind (text_content msg) (fun t =>
        ok (history ++ [ModelRequest [UserPromptPart t]]))
  | assistant =>
      rbind (text_content msg) (fun t =>
        ok (history ++ [ModelResponse [TextPart t]]))
  | system => ok history
  end.

Definition len {A} (l : list A) : Z := Z.of_nat (List.length l).

Definition openai_messages_to_pydantic (messages : list ChatMessage)
    : M (string * list ModelMessage) :=
  match messages with
  | [] => raise (ValueError "Messages array must not be empty.")
  | _ :: _ =>
      st <- lift (for_each (rev messages) scan_step scan_init) ;;
      match user_prompt st with
      | None => raise (ValueError "Messages must contain at least one user message.")
      | Some prompt =>
          history <- lift (for_each (rev (prior_messages st)) history_step []) ;;
          log_info "adapter.openai.messages_converted"
            [("total_messages", LInt (len messages));
             ("history_messages", LInt (len history));
             ("system_messages_skipped", LInt (system_skipped st))] ;;;
          ret (prompt, history)
      end
  end.

(** *** Identifiers *)

(** [uuid.uuid4()], as CPython builds it from the sixteen bytes of
    [os.urandom(16)]: [entropy] is the integer those bytes encode, the
    variant bits are set to [10] and the version nibble to 4. *)
Definition uuid4 (entropy : N) : N :=
  let int := (entropy mod 2 ^ 128)%N in
  let int := N.ldiff int (N.shiftl 0xc000 48) in
  let int := N.lor int (N.shiftl 0x8000 48) in
  let int := N.ldiff int (N.shiftl 0xf000 64) in
  N.lor int (N.shiftl 4 76).

Definition hex_alphabet : list ascii := list_ascii_of_string "0123456789abcdef".

Definition hex_digit (d : N) : ascii := nth (N.to_nat d) hex_alphabet "0"%char.

(** The hexadecimal digit of weight [16 ^ i] of [n]. *)
Definition nibble (n : N) (i : nat) : N :=
  N.land (N.shiftr n (4 * N.of_nat i)) 15.

(** How many hexadecimal digits [n] needs. *)
Definition hex_width (n : N) : nat :=
  if (n =? 0)%N then 1%nat else S (N.to_nat (N.log2 n / 4)).

(** ['%032x' % n], the [hex] attribute of a UUID whose integer is [n]:
    lowercase digits, most significant first, padded with zeros to 32. *)
Definition format_032x (n : N) : string :=
  string_of_list_ascii
    (map (fun i => hex_digit (nibble n i)) (rev (seq 0 (Nat.max 32 (hex_width n))))).

(** [response_id = f"chatcmpl-{uuid.uuid4().hex[:29]}"]. *)
Definition response_id (entropy : N) : string :=
  ("chatcmpl-" ++ substring 0 29 (format_032x (uuid4 entropy)))%string.

(** [build_chat_response].  The two things it reads from the outside are
    arguments here: [entropy], the random bytes behind [uuid.uuid4()], and
    [now], the epoch seconds of [utcnow()]. *)
Definition build_chat_response (entropy : N) (now : Z) (output model : string)
    (request_tokens response_tokens total_tokens : option Z)
    : ChatCompletionResponse :=
  let response_id := response_id entropy in
  let created := now in
  mkChatCompletionResponse response_id created model
    [mkChoice (mkResponseMessage output)]
    {| prompt_tokens := or_zero request_tokens;
       completion_tokens := or_zero response_tokens;
       total_tokens := or_zero total_tokens |}.

End Adapter.

(** ** Settings: [app/core/config.py] *)

Module Config.

(** The two settings the chat route reads. *)
Record Settings : Type := {
  obsidian_vault_path : string;
  api_key : string
}.

End Config.

(** ** The chat route: [app/features/chat/routes.py] *)

Module Routes.
Import Py Models PydanticAI Effects Adapter Config.
Local Open Scope monad_scope.

(** How the external agent answers one invocation
    ([async with vault_agent.iter(...)], the iteration over its nodes and
    [agent_run.result]): it raises, or it ends with a result that may be
    [None]. *)
Definition Agent : Type :=
  string -> list ModelMessage -> VaultDependencies -> result (option AgentRunResult).

Record HTTPAuthorizationCredentials : Type := {
  scheme : string;
  credentials : string
}.

(** [s.partition(" ")] without the separator: what is before and what is
    after the first space. *)
Fixpoint partition_space (s : string) : string * string :=
  match s with
  | EmptyString => ("", "")
  | String c rest =>
      if (c =? " ")%char then ("", rest)
      else let (before, after) := partition_space rest in (String c before, after)
  end.

Definition lower_ascii (c : ascii) : ascii :=
  let n := nat_of_ascii c in
  if ((65 <=? n) && (n <=? 90))%nat then ascii_of_nat (n + 32) else c.

(** [s.lower()] on the characters a header can hold. *)
Fixpoint lower (s : string) : string :=
  match s with
  | EmptyString => EmptyString
  | String c rest => String (lower_ascii c) (lower rest)
  end.

Definition nonempty (s : string) : bool :=
  match s with
  | EmptyString => false
  | String _ _ => true
  end.

(** FastAPI's [get_authorization_scheme_param]. *)
Definition get_authorization_scheme_param (authorization : option string)
    : string * string :=
  match authorization with
  | None => ("", "")
  | Some EmptyString => ("", "")
  | Some value => partition_space value
  end.

(** FastAPI's [HTTPBearer()] security scheme applied to the request's
    [Authorization] header ([None] when the header is absent), with the
    status code the route's tests pin down for a missing header. *)
Definition HTTPBearer (authorization : option string) : M HTTPAuthorizationCredentials :=
  let (scheme, credentials) := get_authorization_scheme_param authorization in
  if negb (truthy_str authorization && nonempty scheme && nonempty credentials) then
    raise (HTTPException 403 "Not authenticated")
  else if negb (lower scheme =? "bearer")%string then
    raise (HTTPException 403 "Invalid authentication credentials")
  else ret {| scheme := scheme; credentials := credentials |}.

Section Route.

Context {float : Type}.

(** [get_settings()]. *)
Variable settings : Settings.

(** The module-level [vault_agent]. *)
Variable vault_agent : Agent.

(** The random bytes and the clock that [build_chat_response] reads. *)
Variable entropy : N.
Variable now : Z.

Definition verify_api_key (credentials : HTTPAuthorizationCredentials)
    : M HTTPAuthorizationCredentials :=
  if negb (Routes.credentials credentials =? api_key settings)%string then
    raise (HTTPException 401 "Invalid API key")
  else ret credentials.

(** The [try] block around the agent: the call is recorded, then the
    agent answers. *)
Definition run_agent (user_prompt : string) (message_history : list ModelMessage)
    (deps : VaultDependencies) : M (option AgentRunResult) :=
  emit (AgentCalled user_prompt message_history deps) ;;;
  lift (vault_agent user_prompt message_history deps).

(** The body of the route.  The wall-clock duration it logs at the end is
    left out of the log record. *)
Definition chat_completions (request : ChatCompletionRequest float)
    : M ChatCompletionResponse :=
  log_info "chat.completions.request_received"
    [("model", LStr (model request));
     ("message_count", LInt (len (messages request)));
     ("stream", LBool (stream request))] ;;;
  if stream request then
    raise (HTTPException 400
      "Streaming not yet supported. Set stream to false in Copilot settings or enable CORS bypass.")
  else
    ' (user_prompt, message_history) <-
      try_except
        (emit (AdapterCalled (messages request)) ;;;
         openai_messages_to_pydantic (messages request))
        (fun e =>
           match e with
           | ValueError _ => Some (raise (HTTPException 400 (exn_str e)))
           | _ => None
           end) ;;
    let deps := {| vault_path := obsidian_vault_path settings |} in
    log_info "chat.completions.agent_run_started"
      [("user_prompt_length", LInt (Z.of_nat (String.length user_prompt)));
       ("history_length", LInt (len message_history))] ;;;
    result <-
      try_except
        (run_agent user_prompt message_history deps)
        (fun e =>
           Some (log_error "chat.completions.request_failed"
                   [("error", LStr (exn_str e)); ("exc_info", LBool true)] ;;;
                 raise (HTTPException 500
                   "Agent execution failed. Check server logs for details."))) ;;
    match result with
    | None => raise (HTTPException 500 "Agent returned no result.")
    | Some result =>
        let usage := run_usage result in
        log_info "chat.completions.response_completed"
          [("total_tokens", log_opt_int (usage_total_tokens usage))] ;;;
        ret (build_chat_response entropy now (data result) (model request)
               (request_tokens usage) (response_tokens usage)
               (usage_total_tokens usage))
    end.

(** [POST /v1/chat/completions] as FastAPI runs it: the security
    dependency [verify_api_key], itself fed by [HTTPBearer], then the
    route body. *)
Definition post_chat_completions (authorization : option string)
    (request : ChatCompletionRequest float) : M ChatCompletionResponse :=
  bearer <- HTTPBearer authorization ;;
  verify_api_key bearer ;;;
  chat_completions request.

End Route.

End Routes.

(** ** Domain exceptions: [app/core/exceptions.py] *)

Module Exceptions.
Import Py Effects.
Local Open Scope monad_scope.

(** The classes of the hierarchy: the four the module declares and any
    class later derived from one of them. *)
Inductive ExcClass : Type :=
| PaddyError
| VaultError
| NoteNotFoundError
| VaultPathError
| Subclass (name : string) (base : ExcClass).

(** [cls.__name__]. *)
Definition class_name (cls : ExcClass) : string :=
  match cls with
  | PaddyError => "PaddyError"
  | VaultError => "VaultError"
  | NoteNotFoundError => "NoteNotFoundError"
  | VaultPathError => "VaultPathError"
  | Subclass name _ => name
  end.

Inductive Declared : Type := DPaddy | DVault | DNoteNotFound | DVaultPath.

(** [issubclass(cls, target)] for a declared [target], along the [class]
    statements: [VaultError(PaddyError)], [NoteNotFoundError(VaultError)],
    [VaultPathError(VaultError)]. *)
Fixpoint issubclass (cls : ExcClass) (target : Declared) : bool :=
  match cls, target with
  | PaddyError, DPaddy => true
  | PaddyError, _ => false
  | VaultError, (DPaddy | DVault) => true
  | VaultError, _ => false
  | NoteNotFoundError, (DPaddy | DVault | DNoteNotFound) => true
  | NoteNotFoundError, DVaultPath => false
  | VaultPathError, (DPaddy | DVault | DVaultPath) => true
  | VaultPathError, DNoteNotFound => false
  | Subclass _ base, _ => issubclass base target
  end.

(** An exception of the hierarchy: its class and its text ([str(exc)]). *)
Record PaddyExc : Type := {
  exc_class : ExcClass;
  exc_message : string
}.

Definition isinstance (exc : PaddyExc) (target : Declared) : bool :=
  issubclass (exc_class exc) target.

(** The two attributes of the request the handler reads. *)
Record Request : Type := {
  url_path : string;
  method : string
}.

Record JSONResponse : Type := {
  status_code : Z;
  json_content : list (string * string)
}.

Definition paddy_exception_handler (request : Request) (exc : PaddyExc) : M JSONResponse :=
  log_error "vault.exception_raised"
    [("error_type", LStr (class_name (exc_class exc)));
     ("error_message", LStr (exc_message exc));
     ("path", LStr (url_path request));
     ("method", LStr (method request));
     ("exc_info", LBool true)] ;;;
  let status_code := 500%Z in
  let status_code :=
    if isinstance exc DNoteNotFound then 404%Z
    else if isinstance exc DVaultPath then 400%Z
    else status_code in
  ret {| status_code := status_code;
         json_content := [("error", exc_message exc);
                          ("type", class_name (exc_class exc))] |}.

End Exceptions.

(** ** What the specification says the adapter returns *)

Module AdapterSpec.
Import Py Models PydanticAI.

Definition is_user (m : ChatMessage) : bool := role_eqb (role m) user.

(** A message is retained unless its role is [system]. *)
Definition retained (m : ChatMessage) : bool := negb (role_eqb (role m) system).

(** The record a message becomes in the history: a request for a user
    message, a response for an assistant message, nothing for a system
    message. *)
Definition record_of (m : ChatMessage) : list ModelMessage :=
  match role m with
  | user => [ModelRequest [UserPromptPart (spec_text (content m))]]
  | assistant => [ModelResponse [TextPart (spec_text (content m))]]
  | system => []
  end.

(** The history made of a sequence of messages, in their order. *)
Definition spec_history (others : list ChatMessage) : list ModelMessage :=
  flat_map record_of others.

(** An input the adapter rejects: empty, or without a user message. *)
Definition rejected (messages : list ChatMessage) : bool :=
  match messages with
  | [] => true
  | _ :: _ => negb (existsb is_user messages)
  end.

(** No message of [l] has the role [user]. *)
Definition no_user (l : list ChatMessage) : Prop :=
  Forall (fun m => role m <> user) l.

(** How many messages of [l] have the role [system]. *)
Definition count_system (l : list ChatMessage) : Z :=
  Z.of_nat (List.length (filter (fun m => role_eqb (role m) system) l)).

(** The one record the adapter logs when it returns. *)
Definition converted_log (total history skipped : Z) : Effects.Event :=
  Effects.Log "info" "adapter.openai.messages_converted"
    [("total_messages", Effects.LInt total);
     ("history_messages", Effects.LInt history);
     ("system_messages_skipped", Effects.LInt skipped)].

Definition is_ValueError {A} (r : result A) : bool :=
  match r with
  | inl (ValueError _) => true
  | _ => false
  end.

Definition returns {A} (r : result A) : bool :=
  match r with
  | inr _ => true
  | inl _ => false
  end.

End AdapterSpec.

(** ** What a run of the chat route looks like *)

Module RoutesSpec.
Import Py Models PydanticAI Effects Adapter Config Routes.

Definition streaming_detail : string :=
  "Streaming not yet supported. Set stream to false in Copilot settings or enable CORS bypass.".

Definition agent_failed_detail : string :=
  "Agent execution failed. Check server logs for details.".

Definition no_result_detail : string := "Agent returned no result.".

Definition received_log {float} (request : ChatCompletionRequest float) : Event :=
  Log "info" "chat.completions.request_received"
    [("model", LStr (model request));
     ("message_count", LInt (len (messages request)));
     ("stream", LBool (stream request))].

Definition started_log (user_prompt : string) (message_history : list ModelMessage)
    : Event :=
  Log "info" "chat.completions.agent_run_started"
    [("user_prompt_length", LInt (Z.of_nat (String.length user_prompt)));
     ("history_length", LInt (len message_history))].

Definition failed_log (e : exn) : Event :=
  Log "error" "chat.completions.request_failed"
    [("error", LStr (exn_str e)); ("exc_info", LBool true)].

Definition completed_log (r : AgentRunResult) : Event :=
  Log "info" "chat.completions.response_completed"
    [("total_tokens", log_opt_int (usage_total_tokens (run_usage r)))].

(** What the route does with the agent's answer. *)
Definition after_agent (entropy : N) (now : Z) (model : string)
    (answer : result (option AgentRunResult)) : M ChatCompletionResponse :=
  match answer with
  | inl e => ([failed_log e], throw (HTTPException 500 agent_failed_detail))
  | inr None => ([], throw (HTTPException 500 no_result_detail))
  | inr (Some r) =>
      ([completed_log r],
       ok (build_chat_response entropy now (data r) model
             (request_tokens (run_usage r)) (response_tokens (run_usage r))
             (usage_total_tokens (run_usage r))))
  end.

(** The calls to the agent that a run of the route on [request] makes:
    one, with the adapter's prompt and history and the vault path of the
    settings, when the request is not a streaming one and the adapter
    returns; none otherwise. *)
Definition expected_agent_calls {float} (settings : Settings)
    (request : ChatCompletionRequest float) : list Event :=
  if stream request then []
  else
    match outcome (openai_messages_to_pydantic (messages request)) with
    | inr (prompt, history) =>
        [AgentCalled prompt history {| vault_path := obsidian_vault_path settings |}]
    | inl _ => []
    end.

(** Two requests that agree on everything but the four tuning
    parameters. *)
Definition same_but_tuning {float} (r1 r2 : ChatCompletionRequest float) : Prop :=
  model r1 = model r2 /\ messages r1 = messages r2 /\ stream r1 = stream r2.

End RoutesSpec.

(** ** What the specification says of identifiers and of the handler *)

Module ResponseSpec.
Import Py Models.

(** A lowercase hexadecimal character: [0-9] or [a-f]. *)
Definition is_lower_hex (c : ascii) : bool :=
  let n := nat_of_ascii c in
  ((48 <=? n) && (n <=? 57) || (97 <=? n) && (n <=? 102))%nat.

(** A token count with its default: zero when it is null. *)
Definition count_or_zero (x : option Z) : Z :=
  match x with
  | Some n => n
  | None => 0
  end.

End ResponseSpec.

Module ExceptionsSpec.
Import Exceptions.

(** The status code by class: 404 for a not-found error, 400 for a path
    error, 500 for the rest of the hierarchy; a derived class answers as
    its base. *)
Fixpoint expected_status (cls : ExcClass) : Z :=
  match cls with
  | PaddyError => 500
  | VaultError => 500
  | NoteNotFoundError => 404
  | VaultPathError => 400
  | Subclass _ base => expected_status base
  end.

(** The record the handler logs. *)
Definition raised_log (request : Request) (exc : PaddyExc) : Effects.Event :=
  Effects.Log "error" "vault.exception_raised"
    [("error_type", Effects.LStr (class_name (exc_class exc)));
     ("error_message", Effects.LStr (exc_message exc));
     ("path", Effects.LStr (url_path request));
     ("method", Effects.LStr (method request));
     ("exc_info", Effects.LBool true)].

End ExceptionsSpec.

(** ** All settings and their cache: [app/core/config.py] *)

Module AppConfig.

(** [Settings], with every field it declares; paths are the strings they
    print as. *)
Record AppSettings : Type := {
  app_name : string;
  version : string;
  environment : string;
  log_level : string;
  llm_provider : string;
  llm_model : string;
  llm_api_key : string;
  obsidian_vault_path : string;
  api_key : string;
  allowed_origins : list string
}.

(** The defaults the class declares. *)
Definition defaults : AppSettings :=
  {| app_name := "Paddy";
     version := "0.1.0";
     environment := "development";
     log_level := "INFO";
     llm_provider := "openai";
     llm_model := "gpt-4.1-nano";
     llm_api_key := "";
     obsidian_vault_path := "/vault";
     api_key := "";
     allowed_origins := ["app://obsidian.md"; "capacitor://localhost"] |}.

(** The property [model_name]: [f"{self.llm_provider}:{self.llm_model}"]. *)
Definition model_name (self : AppSettings) : string :=
  (llm_provider self ++ ":" ++ llm_model self)%string.

(** The part of the settings the chat route reads. *)
Definition route_settings (self : AppSettings) : Config.Settings :=
  {| Config.obsidian_vault_path := obsidian_vault_path self;
     Config.api_key := api_key self |}.

Section GetSettings.

(** The environment [Settings()] is built from, and how it is built
    (pydantic-settings reads the variables and the [.env] file). *)
Variable Env : Type.
Variable load : Env -> AppSettings.

(** [@lru_cache def get_settings(): return Settings()]: a function without
    arguments has one cache slot.  A call takes the environment of the
    moment and the slot, and gives the instance and the slot after it. *)
Definition get_settings (env : Env) (cache : option AppSettings)
    : AppSettings * option AppSettings :=
  match cache with
  | Some instance => (instance, cache)
  | None => let instance := load env in (instance, Some instance)
  end.

(** [get_settings.cache_clear()]. *)
Definition cache_clear (cache : option AppSettings) : option AppSettings := None.

(** One call per environment of [envs], in order: the instances returned
    and the slot at the end. *)
Fixpoint get_settings_each (envs : list Env) (cache : option AppSettings)
    : list AppSettings * option AppSettings :=
  match envs with
  | [] => ([], cache)
  | env :: rest =>
      let (instance, cache') := get_settings env cache in
      let (instances, cache'') := get_settings_each rest cache' in
      (instance :: instances, cache'')
  end.

End GetSettings.

(** No character of [s] is a colon. *)
Fixpoint no_colon (s : string) : bool :=
  match s with
  | EmptyString => true
  | String c rest => negb (c =? ":")%char && no_colon rest
  end.

End AppConfig.

(** ** The smoke-test tool: [app/features/ping/tools.py] *)

Module Ping.
Import PydanticAI.

(** What a tool receives: [ctx.deps]. *)
Record RunContext : Type := { deps : VaultDependencies }.

Definition ping (ctx : RunContext) : string :=
  ("Paddy is connected. Vault path: " ++ vault_path (deps ctx))%string.

End Ping.

(** ** Registering the handler: [setup_exception_handlers] *)

Module ExceptionSetup.
Import Exceptions.


Fixpoint class_eqb (a b : ExcClass) : bool :=
  match a, b with
  | PaddyError, PaddyError => true
  | VaultError, VaultError => true
  | NoteNotFoundError, NoteNotFoundError => true
  | VaultPathError, VaultPathError => true
  | Subclass n1 b1, Subclass n2 b2 => (n1 =? n2)%string && class_eqb b1 b2
  | _, _ => false
  end.








(** The class is one of the four the module declares. *)
Definition declared (cls : ExcClass) : bool :=
  match cls with
  | Subclass _ _ => false
  | _ => true
  end.

End ExceptionSetup.

(** ** Further descriptions of runs *)

Module RunSpec.
Import Py Models PydanticAI Effects Adapter Config Routes.

(** The calls a run of the route makes, in order: none for a streaming
    request, the adapter alone when it raises, the adapter and then the
    agent when it returns. *)
Definition expected_calls {float} (settings : Settings)
    (request : ChatCompletionRequest float) : list Event :=
  if stream request then []
  else
    match outcome (openai_messages_to_pydantic (messages request)) with
    | inr (prompt, history) =>
        [AdapterCalled (messages request);
         AgentCalled prompt history {| vault_path := obsidian_vault_path settings |}]
    | inl _ => [AdapterCalled (messages request)]
    end.

Definition is_error_log (ev : Event) : bool :=
  match ev with
  | Log level _ _ => (level =? "error")%string
  | _ => false
  end.

(** The same part with another image reference. *)
Definition with_image_url (img : option (list (string * string))) (part : ContentPart)
    : ContentPart :=
  {| part_type := part_type part; text := text part; image_url := img |}.

End RunSpec.

(** * Properties *)

Import Py Models PydanticAI Effects Adapter AdapterSpec.
Import Config Routes RoutesSpec ResponseSpec Exceptions ExceptionsSpec.

(** ** Normalising message content *)

Section TextContent.

Lemma append_empty_r (s : string) : (s ++ "")%string = s.
Proof.
  induction s as [|c s IH]; simpl; [reflexivity|].
  now rewrite IH.
Qed.

Lemma concat_empty_cons (x : string) (l : list string) :
  String.concat "" (x :: l) = (x ++ String.concat "" l)%string.
Proof.
  destruct l as [|y l]; simpl.
  - now rewrite append_empty_r.
  - reflexivity.
Qed.

(** The generator of [text_content] only lets through items [join] accepts,
    and what it drops among the text-typed parts is empty. *)
Lemma join_selected (parts : list ContentPart) :
  join_empty (map text (filter selected parts))
  = ok (String.concat "" (map part_text (filter is_text_part parts))).
Proof.
  induction parts as [|[ty tx img] parts IH]; [reflexivity|].
  cbn [filter]. unfold selected at 1, is_text_part at 1.
  cbn [part_type text].
  destruct (ty =? "text")%string; cbn [andb]; [|exact IH].
  cbn [map]. rewrite concat_empty_cons. unfold part_text at 1.
  destruct tx as [[|c s]|]; cbn [truthy_str map join_empty text];
    try exact IH.
  rewrite IH. reflexivity.
Qed.

Lemma text_content_spec (m : ChatMessage) :
  text_content m = ok (spec_text (content m)).
Proof.
  unfold text_content, spec_text.
  destruct (content m) as [s|parts]; [reflexivity|apply join_selected].
Qed.

End TextContent.

Lemma concat_empty_app (a b : list string) :
  String.concat "" (a ++ b) = (String.concat "" a ++ String.concat "" b)%string.
Proof.
  induction a as [|x a IH]; [reflexivity|].
  rewrite <- app_comm_cons, !concat_empty_cons, IH.
  induction x as [|c x IHx]; simpl; [reflexivity|now rewrite IHx].
Qed.

(** Removing from a list of parts one that carries no text does not change
    the normalised text. *)
Lemma spec_text_skip (before after : list ContentPart) (p : ContentPart) :
  part_text p = "" ->
  spec_text (Parts (before ++ p :: after)) = spec_text (Parts (before ++ after)).
Proof.
  intros Hp. unfold spec_text.
  rewrite !filter_app, !map_app, !concat_empty_app. f_equal.
  cbn [filter]. destruct (is_text_part p); [|reflexivity].
  cbn [map]. now rewrite concat_empty_cons, Hp.
Qed.

(** C8: [text_content] returns a plain-string content unchanged, and for a
    list of parts it returns the concatenation, in list order, of the text
    of exactly the text-typed parts; a part of any other type is dropped. *)
Theorem text_content_concatenates_text_parts :
  (forall (r : Role) (s : string),
      text_content {| role := r; content := Str s |} = ok s)
  /\ (forall (r : Role) (parts : list ContentPart),
        text_content {| role := r; content := Parts parts |}
        = ok (String.concat "" (map part_text (filter is_text_part parts))))
  /\ (forall (r : Role) (before after : list ContentPart) (p : ContentPart),
        is_text_part p = false ->
        text_content {| role := r; content := Parts (before ++ p :: after) |}
        = text_content {| role := r; content := Parts (before ++ after) |}).
Proof.
  split; [|split].
  - reflexivity.
  - intros r parts. apply (text_content_spec {| role := r; content := Parts parts |}).
  - intros r before after p Hp.
    rewrite !text_content_spec. cbn [content]. unfold spec_text.
    rewrite !filter_app. cbn [filter]. now rewrite Hp.
Qed.

Lemma text_content_concatenates_text_parts_witness :
  let image :=
    {| part_type := "image_url"; text := None;
       image_url := Some [("url", "data:image/png;base64,...")] |} in
  let question :=
    {| part_type := "text"; text := Some "What is this?"; image_url := None |} in
  is_text_part image = false
  /\ text_content {| role := user; content := Parts ([question] ++ image :: []) |}
     = text_content {| role := user; content := Parts ([question] ++ []) |}
  /\ text_content {| role := user; content := Parts [question; image] |}
     = ok "What is this?".
Proof.
  intros image question.
  assert (H : is_text_part image = false) by reflexivity.
  destruct text_content_concatenates_text_parts as (_ & Hparts & Hdrop).
  split; [exact H|]. split.
  - exact (Hdrop user [question] [] image H).
  - exact (Hparts user [question; image]).
Defined.

(** C9: [text_content] never fails: it returns a string for every message,
    and a part typed ["text"] whose text is null or empty contributes
    nothing to that string. *)
Theorem text_content_total :
  (forall m : ChatMessage, exists s : string, text_content m = ok s)
  /\ (forall (r : Role) (before after : list ContentPart)
             (img : option (list (string * string))),
        text_content
          {| role := r;
             content := Parts (before
                               ++ {| part_type := "text"; text := None; image_url := img |}
                               :: after) |}
        = text_content {| role := r; content := Parts (before ++ after) |})
  /\ (forall (r : Role) (before after : list ContentPart)
             (img : option (list (string * string))),
        text_content
          {| role := r;
             content := Parts (before
                               ++ {| part_type := "text"; text := Some ""; image_url := img |}
                               :: after) |}
        = text_content {| role := r; content := Parts (before ++ after) |}).
Proof.
  split; [|split].
  - intros m. exists (spec_text (content m)). apply text_content_spec.
  - intros r before after img. rewrite !text_content_spec. cbn [content].
    now rewrite spec_text_skip.
  - intros r before after img. rewrite !text_content_spec. cbn [content].
    now rewrite spec_text_skip.
Qed.

(** ** The adapter *)

Section AdapterProofs.

Lemma for_each_app {A S : Type} (body : S -> A -> result S) (l1 l2 : list A) (st : S) :
  for_each (l1 ++ l2) body st = rbind (for_each l1 body st) (for_each l2 body).
Proof.
  revert st. induction l1 as [|x l1 IH]; intros st; [reflexivity|].
  cbn [app for_each]. destruct (body st x) as [e|st']; cbn [rbind]; [reflexivity|].
  apply IH.
Qed.

Lemma count_system_cons (m : ChatMessage) (l : list ChatMessage) :
  count_system (m :: l)
  = ((if role_eqb (role m) system then 1 else 0) + count_system l)%Z.
Proof.
  unfold count_system. cbn [filter].
  destruct (role_eqb (role m) system); cbn [List.length]; lia.
Qed.

(** The first loop, run where it cannot pick a prompt: either one is
    already there, or no user message is left to see. *)
Lemma scan_without_pick (l : list ChatMessage) (st : Scan) :
  user_prompt st <> None \/ no_user l ->
  for_each l scan_step st
  = ok {| user_prompt := user_prompt st;
          system_skipped := system_skipped st + count_system l;
          prior_messages := prior_messages st ++ filter retained l |}.
Proof.
  revert st. induction l as [|m l IH]; intros [p k prior] H.
  - cbn. now rewrite Z.add_0_r, app_nil_r.
  - cbn [for_each user_prompt system_skipped prior_messages] in *.
    rewrite count_system_cons. unfold scan_step, retained.
    cbn [user_prompt system_skipped prior_messages filter].
    assert (Hpick : role_eqb (role m) user && is_None p = false).
    { destruct H as [H|H].
      - destruct p; [apply andb_false_r|contradiction].
      - inversion H as [|? ? Hm _]; subst.
        destruct (role m); [reflexivity|contradiction|reflexivity]. }
    rewrite Hpick.
    assert (H' : p <> None \/ no_user l).
    { destruct H as [H|H]; [now left|right; now inversion H]. }
    destruct (role_eqb (role m) system); cbn [rbind ok negb].
    + rewrite IH by exact H'. cbn [user_prompt system_skipped prior_messages].
      now rewrite Z.add_assoc.
    + rewrite IH by exact H'. cbn [user_prompt system_skipped prior_messages].
      now rewrite <- app_assoc, Z.add_0_l.
Qed.

Lemma history_run (l : list ChatMessage) (h : list ModelMessage) :
  for_each l history_step h = ok (h ++ spec_history l).
Proof.
  revert h. induction l as [|m l IH]; intros h.
  - cbn. now rewrite app_nil_r.
  - cbn [for_each]. unfold history_step, spec_history. cbn [flat_map].
    unfold record_of at 1. rewrite text_content_spec.
    destruct (role m); cbn [rbind ok]; rewrite IH; unfold spec_history;
      now rewrite <- ?app_assoc.
Qed.

Lemma spec_history_retained (l : list ChatMessage) :
  spec_history (filter retained l) = spec_history l.
Proof.
  unfold spec_history. induction l as [|m l IH]; [reflexivity|].
  cbn [filter flat_map]. unfold retained at 1, record_of at 2.
  destruct (role m) eqn:Hr; cbn [role_eqb negb flat_map app]; rewrite IH;
    [reflexivity| |]; unfold record_of; now rewrite Hr.
Qed.


Lemma length_spec_history (l : list ChatMessage) :
  List.length (spec_history l) = List.length (filter retained l).
Proof.
  unfold spec_history. induction l as [|x l IH]; [reflexivity|].
  cbn [flat_map filter]. rewrite length_app, IH.
  unfold record_of, retained. destruct (role x); reflexivity.
Qed.

Lemma count_system_app (a b : list ChatMessage) :
  count_system (a ++ b) = (count_system a + count_system b)%Z.
Proof.
  unfold count_system. rewrite filter_app, length_app. lia.
Qed.

Lemma count_system_rev (l : list ChatMessage) :
  count_system (rev l) = count_system l.
Proof.
  unfold count_system. now rewrite filter_rev, length_rev.
Qed.

Lemma no_user_rev (l : list ChatMessage) : no_user l -> no_user (rev l).
Proof. apply Forall_rev. Qed.

(** The first loop on a list whose last user message is [last]. *)
Lemma scan_run (pre post : list ChatMessage) (last : ChatMessage) :
  role last = user -> no_user post ->
  for_each (rev (pre ++ last :: post)) scan_step scan_init
  = ok {| user_prompt := Some (spec_text (content last));
          system_skipped := count_system (pre ++ post);
          prior_messages := rev (filter retained (pre ++ post)) |}.
Proof.
  intros Hlast Hpost.
  rewrite rev_app_distr. cbn [rev]. rewrite <- app_assoc. cbn [app].
  rewrite for_each_app.
  rewrite scan_without_pick by (right; now apply no_user_rev).
  cbn [rbind ok for_each scan_init user_prompt system_skipped prior_messages app].
  unfold scan_step at 1. cbn [user_prompt system_skipped prior_messages].
  rewrite Hlast. cbn [role_eqb is_None andb].
  rewrite text_content_spec. cbn [rbind ok].
  rewrite scan_without_pick by (left; discriminate).
  cbn [user_prompt system_skipped prior_messages].
  rewrite !count_system_rev, count_system_app, !filter_rev, filter_app, rev_app_distr.
  unfold ok. do 2 f_equal. lia.
Qed.

(** The complete run of the adapter on such a list: the record it logs
    and the pair it returns. *)
Lemma adapter_run (pre post : list ChatMessage) (last : ChatMessage) :
  role last = user -> no_user post ->
  openai_messages_to_pydantic (pre ++ last :: post)
  = ([converted_log (len (pre ++ last :: post))
        (len (spec_history (pre ++ post)))
        (count_system (pre ++ post))],
     ok (spec_text (content last), spec_history (pre ++ post))).
Proof.
  intros Hlast Hpost. unfold openai_messages_to_pydantic.
  destruct (pre ++ last :: post) as [|m0 ms] eqn:E.
  { destruct pre; discriminate. }
  rewrite <- E. rewrite scan_run by assumption.
  unfold lift, bind at 1, ok.
  cbn [user_prompt prior_messages system_skipped app].
  rewrite rev_involutive, history_run, spec_history_retained.
  reflexivity.
Qed.

(** A list with a user message splits around its last one. *)
Lemma last_user_split (messages : list ChatMessage) :
  existsb is_user messages = true ->
  exists pre last post,
    messages = pre ++ last :: post /\ role last = user /\ no_user post.
Proof.
  induction messages as [|m l IH]; [discriminate|].
  cbn [existsb]. intros H.
  destruct (existsb is_user l) eqn:El.
  - destruct (IH eq_refl) as (pre & last & post & -> & Hl & Hp).
    now exists (m :: pre), last, post.
  - rewrite orb_false_r in H. exists [], m, l. split; [reflexivity|]. split.
    + unfold is_user in H. now destruct (role m).
    + apply Forall_forall. intros x Hx Hu.
      assert (existsb is_user l = true); [|congruence].
      apply existsb_exists. exists x. split; [assumption|].
      unfold is_user. now rewrite Hu.
Qed.

Lemma no_user_existsb (l : list ChatMessage) :
  existsb is_user l = false -> no_user l.
Proof.
  intros H. apply Forall_forall. intros x Hx Hu.
  assert (existsb is_user l = true); [|congruence].
  apply existsb_exists. exists x. split; [assumption|].
  unfold is_user. now rewrite Hu.
Qed.

(** The run of the adapter on an input it rejects. *)
Lemma adapter_rejects (messages : list ChatMessage) :
  rejected messages = true ->
  openai_messages_to_pydantic messages
  = ([], throw (ValueError
                  (match messages with
                   | [] => "Messages array must not be empty."
                   | _ :: _ => "Messages must contain at least one user message."
                   end))).
Proof.
  unfold rejected, openai_messages_to_pydantic.
  destruct messages as [|m0 ms]; [reflexivity|].
  intros H. apply negb_true_iff, no_user_existsb in H.
  rewrite scan_without_pick by (right; now apply no_user_rev).
  reflexivity.
Qed.

(** The run of the adapter on an input it accepts. *)
Lemma adapter_accepts (messages : list ChatMessage) :
  rejected messages = false ->
  exists pre last post,
    messages = pre ++ last :: post /\ role last = user /\ no_user post
    /\ openai_messages_to_pydantic messages
       = ([converted_log (len messages) (len (spec_history (pre ++ post)))
             (count_system (pre ++ post))],
          ok (spec_text (content last), spec_history (pre ++ post))).
Proof.
  intros H.
  assert (Hu : existsb is_user messages = true).
  { destruct messages; [discriminate|]. now apply negb_false_iff in H. }
  destruct (last_user_split _ Hu) as (pre & last & post & -> & Hl & Hp).
  exists pre, last, post. repeat split; try assumption.
  now apply adapter_run.
Qed.

End AdapterProofs.

(** The cases of [app/shared/tests/test_openai_adapter.py]. *)

Example test_single_user_message :
  outcome (openai_messages_to_pydantic [{| role := user; content := Str "Hello" |}])
  = ok ("Hello", []).
Proof. reflexivity. Qed.

Example test_message_history_alternating_order :
  outcome (openai_messages_to_pydantic
             [{| role := system; content := Str "System" |};
              {| role := user; content := Str "Q1" |};
              {| role := assistant; content := Str "A1" |};
              {| role := user; content := Str "Q2" |};
              {| role := assistant; content := Str "A2" |};
              {| role := user; content := Str "Q3" |}])
  = ok ("Q3",
        [ModelRequest [UserPromptPart "Q1"]; ModelResponse [TextPart "A1"];
         ModelRequest [UserPromptPart "Q2"]; ModelResponse [TextPart "A2"]]).
Proof. reflexivity. Qed.

Example test_no_user_message_raises :
  outcome (openai_messages_to_pydantic
             [{| role := system; content := Str "System prompt" |};
              {| role := assistant; content := Str "Previous response" |}])
  = throw (ValueError "Messages must contain at least one user message.").
Proof. reflexivity. Qed.

(** A reply that follows the last user message stays in the history. *)
Example assistant_after_last_user :
  outcome (openai_messages_to_pydantic
             [{| role := user; content := Str "Q1" |};
              {| role := assistant; content := Str "A1" |}])
  = ok ("Q1", [ModelResponse [TextPart "A1"]]).
Proof. reflexivity. Qed.

(** C1: on a list with at least one user message the adapter returns the
    normalised text of the last user message as the prompt, and as history
    the other messages in their original order, system messages dropped,
    each user message as a request record and each assistant message as a
    response record; for a single user message the history is empty. *)
Theorem adapter_prompt_is_last_user_message (messages : list ChatMessage) :
  messages <> [] ->
  (exists m, In m messages /\ role m = user) ->
  exists pre last post prompt history,
    messages = pre ++ last :: post
    /\ role last = user
    /\ no_user post
    /\ outcome (openai_messages_to_pydantic messages) = ok (prompt, history)
    /\ text_content last = ok prompt
    /\ history = spec_history (pre ++ post)
    /\ List.length history = List.length (filter retained (pre ++ post))
    /\ (List.length messages = 1%nat -> history = []).
Proof.
  intros _ (m & Hin & Hm).
  assert (Hu : existsb is_user messages = true).
  { apply existsb_exists. exists m. split; [assumption|].
    unfold is_user. now rewrite Hm. }
  destruct (last_user_split _ Hu) as (pre & last & post & -> & Hl & Hp).
  exists pre, last, post, (spec_text (content last)), (spec_history (pre ++ post)).
  repeat split; try assumption.
  - now rewrite adapter_run.
  - apply text_content_spec.
  - apply length_spec_history.
  - rewrite length_app. cbn [List.length]. intros Hlen.
    destruct pre; [|cbn in Hlen; lia]. destruct post; [reflexivity|cbn in Hlen; lia].
Qed.

Lemma adapter_prompt_is_last_user_message_witness :
  let q1 := {| role := user; content := Str "Q1" |} in
  let a1 := {| role := assistant; content := Str "A1" |} in
  let q2 := {| role := user; content := Parts [{| part_type := "text"; text := Some "Q2"; image_url := None |}] |} in
  let sy := {| role := system; content := Str "S" |} in
  let messages := [sy; q1; a1; q2; a1] in
  messages <> []
  /\ (exists m, In m messages /\ role m = user)
  /\ exists pre last post prompt history,
       messages = pre ++ last :: post
       /\ role last = user
       /\ no_user post
       /\ outcome (openai_messages_to_pydantic messages) = ok (prompt, history)
       /\ text_content last = ok prompt
       /\ history = spec_history (pre ++ post)
       /\ List.length history = List.length (filter retained (pre ++ post))
       /\ (List.length messages = 1%nat -> history = []).
Proof.
  intros q1 a1 q2 sy messages.
  assert (Hne : messages <> []) by discriminate.
  assert (Hex : exists m, In m messages /\ role m = user).
  { exists q1. split; [right; left; reflexivity|reflexivity]. }
  split; [exact Hne|]. split; [exact Hex|].
  exact (adapter_prompt_is_last_user_message messages Hne Hex).
Defined.

(** The adapter raises [ValueError] exactly on the inputs [rejected]
    describes, and returns on every other list. *)
Lemma adapter_outcome (messages : list ChatMessage) :
  is_ValueError (outcome (openai_messages_to_pydantic messages)) = rejected messages
  /\ returns (outcome (openai_messages_to_pydantic messages)) = negb (rejected messages).
Proof.
  destruct (rejected messages) eqn:Hr.
  - rewrite (adapter_rejects _ Hr). split; reflexivity.
  - destruct (adapter_accepts _ Hr) as (pre & last & post & _ & _ & _ & ->).
    split; reflexivity.
Qed.

Lemma rejected_iff (messages : list ChatMessage) :
  rejected messages = true <-> messages = [] \/ no_user messages.
Proof.
  split.
  - destruct messages as [|m l]; [now left|]. intros H. right.
    now apply no_user_existsb, negb_true_iff.
  - intros [->|H]; [reflexivity|].
    destruct messages as [|m l]; [reflexivity|].
    unfold rejected. apply negb_true_iff.
    destruct (existsb is_user (m :: l)) eqn:E; [|reflexivity].
    apply existsb_exists in E as (x & Hx & Hu).
    unfold no_user in H. rewrite Forall_forall in H. specialize (H x Hx).
    unfold is_user in Hu. now destruct (role x).
Qed.

(** ** The chat route *)

Section RouteProofs.

Context {float : Type}.
Variable settings : Settings.
Variable vault_agent : Agent.
Variable entropy : N.
Variable now : Z.

Local Abbreviation handler := (chat_completions settings vault_agent entropy now).

Lemma chat_completions_stream (request : ChatCompletionRequest float) :
  stream request = true ->
  handler request
  = ([received_log request], throw (HTTPException 400 streaming_detail)).
Proof.
  intros H. unfold chat_completions, received_log.
  destruct (stream request); [reflexivity|discriminate].
Qed.

Lemma chat_completions_rejected (request : ChatCompletionRequest float) :
  stream request = false -> rejected (messages request) = true ->
  exists msg,
    openai_messages_to_pydantic (messages request) = ([], throw (ValueError msg))
    /\ handler request
       = ([received_log request; AdapterCalled (messages request)],
          throw (HTTPException 400 msg)).
Proof.
  intros Hs Hr. pose proof (adapter_rejects _ Hr) as Ha.
  eexists. split; [exact Ha|].
  unfold chat_completions, received_log.
  destruct (stream request); [discriminate|]. rewrite Ha. reflexivity.
Qed.

Lemma chat_completions_accepted (request : ChatCompletionRequest float)
    (tr : list Event) (prompt : string) (history : list ModelMessage) :
  stream request = false ->
  openai_messages_to_pydantic (messages request) = (tr, ok (prompt, history)) ->
  let deps := {| vault_path := obsidian_vault_path settings |} in
  let rest := after_agent entropy now (model request) (vault_agent prompt history deps) in
  handler request
  = (received_log request :: AdapterCalled (messages request) :: tr
       ++ started_log prompt history :: AgentCalled prompt history deps :: events rest,
     outcome rest).
Proof.
  intros Hs Ha deps rest. subst rest deps.
  unfold chat_completions, received_log.
  destruct (stream request); [discriminate|]. rewrite Ha.
  unfold after_agent, run_agent, try_except, bind, emit, log_info, lift, ok.
  cbn [app fst snd].
  destruct (vault_agent prompt history _) as [e|[r|]]; reflexivity.
Qed.

End RouteProofs.

Lemma status_after_agent (entropy : N) (now : Z) (model : string)
    (answer : result (option AgentRunResult)) :
  status_of (after_agent entropy now model answer) = 200%Z
  \/ status_of (after_agent entropy now model answer) = 500%Z.
Proof.
  destruct answer as [e|[r|]]; [right|left|right]; reflexivity.
Qed.

(** C2: the adapter raises [ValueError] if and only if its input is empty
    or has no user message, and returns on every other input; the route
    answers exactly these errors of the adapter with 400, carrying the
    adapter's message. *)
Theorem adapter_error_iff_rejected_and_mapped_to_400 :
  forall messages : list ChatMessage,
    (rejected messages = true <-> messages = [] \/ no_user messages)
    /\ is_ValueError (outcome (openai_messages_to_pydantic messages)) = rejected messages
    /\ returns (outcome (openai_messages_to_pydantic messages)) = negb (rejected messages)
    /\ forall (float : Type) (settings : Settings) (vault_agent : Agent)
              (entropy : N) (now : Z) (model : string)
              (temperature top_p frequency_penalty : option float)
              (max_tokens : option Z),
         let request :=
           {| model := model; messages := messages; stream := false;
              temperature := temperature; max_tokens := max_tokens;
              top_p := top_p; frequency_penalty := frequency_penalty |} in
         let run := chat_completions settings vault_agent entropy now request in
         (status_of run =? 400)%Z = rejected messages
         /\ forall e, outcome (openai_messages_to_pydantic messages) = throw e ->
              outcome run = throw (HTTPException 400 (exn_str e)).
Proof.
  intros messages.
  split; [apply rejected_iff|].
  split; [apply adapter_outcome|]. split; [apply adapter_outcome|].
  intros float settings vault_agent entropy now model temperature top_p
    frequency_penalty max_tokens request run.
  destruct (rejected messages) eqn:Hr.
  - destruct (chat_completions_rejected settings vault_agent entropy now request
                eq_refl Hr) as (msg & Ha & Hrun).
    cbn [Models.messages request] in Ha. subst run. rewrite Hrun. split; [reflexivity|].
    intros e He. rewrite Ha in He. cbn in He. now inversion He.
  - destruct (adapter_accepts _ Hr) as (pre & last & post & _ & _ & _ & Ha).
    subst run.
    rewrite (chat_completions_accepted settings vault_agent entropy now request
               _ _ _ eq_refl Ha).
    split.
    + unfold status_of at 1. cbn [outcome snd].
      match goal with
      | |- context [after_agent ?a ?b ?c ?d] =>
          destruct (status_after_agent a b c d) as [H|H]
      end; unfold status_of in H; rewrite H; reflexivity.
    + intros e He. rewrite Ha in He. discriminate.
Qed.

Lemma adapter_error_iff_rejected_and_mapped_to_400_witness :
  let settings := {| obsidian_vault_path := "/vault"; api_key := "test-secret-key" |} in
  let vault_agent : Agent := fun _ _ _ => ok None in
  let request : ChatCompletionRequest nat :=
    {| model := "paddy"; messages := []; stream := false;
       temperature := None; max_tokens := None; top_p := None;
       frequency_penalty := None |} in
  outcome (openai_messages_to_pydantic [])
  = throw (ValueError "Messages array must not be empty.")
  /\ outcome (chat_completions settings vault_agent 0 0 request)
     = throw (HTTPException 400 "Messages array must not be empty.").
Proof.
  intros settings vault_agent request.
  assert (H : outcome (openai_messages_to_pydantic [])
              = throw (ValueError "Messages array must not be empty."))
    by reflexivity.
  split; [exact H|].
  destruct (adapter_error_iff_rejected_and_mapped_to_400 []) as (_ & _ & _ & Hroute).
  exact (proj2 (Hroute nat settings vault_agent 0%N 0%Z "paddy" None None None None)
           _ H).
Defined.

(** The security dependency lets a request through only with the
    configured key. *)
Lemma verify_api_key_run (settings : Settings) (bearer : HTTPAuthorizationCredentials) :
  verify_api_key settings bearer
  = if (credentials bearer =? api_key settings)%string then ret bearer
    else raise (HTTPException 401 "Invalid API key").
Proof.
  unfold verify_api_key. now destruct (credentials bearer =? api_key settings)%string.
Qed.

Lemma HTTPBearer_token (token : string) :
  token <> "" ->
  HTTPBearer (Some ("Bearer " ++ token)%string)
  = ret {| scheme := "Bearer"; credentials := token |}.
Proof.
  intros H. destruct token as [|c token]; [contradiction|]. reflexivity.
Qed.

Lemma endpoint_run {float : Type} (settings : Settings) (vault_agent : Agent)
    (entropy : N) (now : Z) (request : ChatCompletionRequest float)
    (authorization : option string) (bearer : HTTPAuthorizationCredentials) :
  HTTPBearer authorization = ret bearer ->
  post_chat_completions settings vault_agent entropy now authorization request
  = if (credentials bearer =? api_key settings)%string
    then chat_completions settings vault_agent entropy now request
    else ([], throw (HTTPException 401 "Invalid API key")).
Proof.
  intros Hb. unfold post_chat_completions. rewrite Hb.
  unfold ret at 1, bind at 1. rewrite verify_api_key_run.
  destruct (credentials bearer =? api_key settings)%string; [|reflexivity].
  unfold ret, bind.
  now destruct (chat_completions settings vault_agent entropy now request).
Qed.

(** C4: a missing [Authorization] header is answered with 403, a bearer
    credential that differs from the configured key with 401, and a
    request that declares [stream = true] with 400; in each case neither
    the adapter nor the agent has been called. *)
Theorem auth_and_streaming_fail_before_any_call :
  forall (float : Type) (settings : Settings) (vault_agent : Agent)
         (entropy : N) (now : Z) (request : ChatCompletionRequest float),
    let handler := chat_completions settings vault_agent entropy now in
    let endpoint := post_chat_completions settings vault_agent entropy now in
    (status_of (endpoint None request) = 403%Z
     /\ calls (endpoint None request) = [])
    /\ (forall authorization bearer,
          HTTPBearer authorization = ret bearer ->
          credentials bearer <> api_key settings ->
          status_of (endpoint authorization request) = 401%Z
          /\ calls (endpoint authorization request) = [])
    /\ (forall token : string,
          token <> "" -> token <> api_key settings ->
          status_of (endpoint (Some ("Bearer " ++ token)%string) request) = 401%Z
          /\ calls (endpoint (Some ("Bearer " ++ token)%string) request) = [])
    /\ (stream request = true ->
          (status_of (handler request) = 400%Z /\ calls (handler request) = [])
          /\ forall authorization bearer,
               HTTPBearer authorization = ret bearer ->
               credentials bearer = api_key settings ->
               status_of (endpoint authorization request) = 400%Z
               /\ calls (endpoint authorization request) = []).
Proof.
  intros float settings vault_agent entropy now request handler endpoint.
  subst handler endpoint.
  assert (Hbad : forall authorization bearer,
             HTTPBearer authorization = ret bearer ->
             credentials bearer <> api_key settings ->
             status_of (post_chat_completions settings vault_agent entropy now
                          authorization request) = 401%Z
             /\ calls (post_chat_completions settings vault_agent entropy now
                         authorization request) = []).
  { intros authorization bearer Hb Hk.
    rewrite (endpoint_run _ _ _ _ _ _ _ Hb).
    apply String.eqb_neq in Hk. rewrite Hk. split; reflexivity. }
  split; [split; reflexivity|].
  split; [exact Hbad|].
  split.
  - intros token Hne Hk.
    apply (Hbad _ {| scheme := "Bearer"; credentials := token |});
      [now apply HTTPBearer_token|exact Hk].
  - intros Hs. rewrite (chat_completions_stream _ _ _ _ _ Hs).
    split; [split; reflexivity|].
    intros authorization bearer Hb Hk.
    rewrite (endpoint_run _ _ _ _ _ _ _ Hb).
    apply String.eqb_eq in Hk. rewrite Hk.
    rewrite (chat_completions_stream _ _ _ _ _ Hs). split; reflexivity.
Qed.

Lemma auth_and_streaming_fail_before_any_call_witness :
  let settings := {| obsidian_vault_path := "/vault"; api_key := "test-secret-key" |} in
  let vault_agent : Agent := fun _ _ _ => ok None in
  let request : ChatCompletionRequest nat :=
    {| model := "paddy";
       messages := [{| role := user; content := Str "Hello" |}];
       stream := true;
       temperature := None; max_tokens := None; top_p := None;
       frequency_penalty := None |} in
  let endpoint := post_chat_completions settings vault_agent 0 0 in
  ("wrong-key" <> "" /\ "wrong-key" <> api_key settings
   /\ status_of (endpoint (Some "Bearer wrong-key") request) = 401%Z
   /\ calls (endpoint (Some "Bearer wrong-key") request) = [])
  /\ (stream request = true
      /\ HTTPBearer (Some "Bearer test-secret-key")
         = ret {| scheme := "Bearer"; credentials := "test-secret-key" |}
      /\ status_of (endpoint (Some "Bearer test-secret-key") request) = 400%Z
      /\ calls (endpoint (Some "Bearer test-secret-key") request) = []).
Proof.
  intros settings vault_agent request endpoint.
  destruct (auth_and_streaming_fail_before_any_call nat settings vault_agent 0 0 request)
    as (_ & _ & Htoken & Hstream).
  assert (H1 : "wrong-key" <> "") by discriminate.
  assert (H2 : "wrong-key" <> api_key settings) by discriminate.
  assert (H3 : stream request = true) by reflexivity.
  assert (H4 : HTTPBearer (Some "Bearer test-secret-key")
               = ret {| scheme := "Bearer"; credentials := "test-secret-key" |})
    by reflexivity.
  split.
  - split; [exact H1|]. split; [exact H2|]. exact (Htoken "wrong-key" H1 H2).
  - split; [exact H3|]. split; [exact H4|].
    exact (proj2 (Hstream H3) _ _ H4 eq_refl).
Defined.

(** C5: when the agent invocation raises, whatever the exception, and when
    it ends without a result, the route answers 500 with a fixed detail
    string; the exception's text goes to the error log and nowhere into
    the answer, which is the same for every exception. *)
Theorem agent_failure_answers_generic_500 :
  forall (float : Type) (settings : Settings) (vault_agent : Agent)
         (entropy : N) (now : Z) (request : ChatCompletionRequest float)
         (tr : list Event) (prompt : string) (history : list ModelMessage),
    stream request = false ->
    openai_messages_to_pydantic (messages request) = (tr, ok (prompt, history)) ->
    let deps := {| vault_path := obsidian_vault_path settings |} in
    let run := chat_completions settings vault_agent entropy now request in
    (forall e : exn,
        vault_agent prompt history deps = throw e ->
        outcome run = throw (HTTPException 500 agent_failed_detail)
        /\ status_of run = 500%Z
        /\ In (failed_log e) (events run))
    /\ (vault_agent prompt history deps = ok None ->
        outcome run = throw (HTTPException 500 no_result_detail)
        /\ status_of run = 500%Z)
    /\ (forall (other_agent : Agent) (e e' : exn),
          vault_agent prompt history deps = throw e ->
          other_agent prompt history deps = throw e' ->
          outcome (chat_completions settings other_agent entropy now request)
          = outcome run).
Proof.
  intros float settings vault_agent entropy now request tr prompt history Hs Ha
    deps run.
  assert (Hraise : forall (agent : Agent) (e : exn),
             agent prompt history deps = throw e ->
             chat_completions settings agent entropy now request
             = (received_log request :: AdapterCalled (messages request) :: tr
                  ++ [started_log prompt history; AgentCalled prompt history deps;
                      failed_log e],
                throw (HTTPException 500 agent_failed_detail))).
  { intros agent e He.
    rewrite (chat_completions_accepted settings agent entropy now request
               _ _ _ Hs Ha).
    fold deps. rewrite He. reflexivity. }
  split; [|split].
  - intros e He. subst run. rewrite (Hraise _ _ He).
    split; [reflexivity|]. split; [reflexivity|].
    cbn [events fst]. right. right. apply in_or_app. right.
    right. right. now left.
  - intros Hn. subst run.
    rewrite (chat_completions_accepted settings vault_agent entropy now request
               _ _ _ Hs Ha).
    fold deps. rewrite Hn. split; reflexivity.
  - intros other e e' He He'. subst run.
    now rewrite (Hraise _ _ He), (Hraise _ _ He').
Qed.

Lemma agent_failure_answers_generic_500_witness :
  let settings := {| obsidian_vault_path := "/vault"; api_key := "k" |} in
  let vault_agent : Agent :=
    fun _ _ _ => throw (OtherException "RuntimeError" "provider key sk-123 rejected") in
  let request : ChatCompletionRequest nat :=
    {| model := "paddy";
       messages := [{| role := user; content := Str "Hello" |}];
       stream := false;
       temperature := None; max_tokens := None; top_p := None;
       frequency_penalty := None |} in
  let run := chat_completions settings vault_agent 0 0 request in
  stream request = false
  /\ openai_messages_to_pydantic (messages request)
     = ([converted_log 1 0 0], ok ("Hello", []))
  /\ outcome run = throw (HTTPException 500 agent_failed_detail)
  /\ status_of run = 500%Z
  /\ In (failed_log (OtherException "RuntimeError" "provider key sk-123 rejected"))
        (events run).
Proof.
  intros settings vault_agent request run.
  assert (Hs : stream request = false) by reflexivity.
  assert (Ha : openai_messages_to_pydantic (messages request)
               = ([converted_log 1 0 0], ok ("Hello", []))) by reflexivity.
  split; [exact Hs|]. split; [exact Ha|].
  exact (proj1 (agent_failure_answers_generic_500 nat settings vault_agent 0 0
                  request _ _ _ Hs Ha) _ eq_refl).
Defined.

Lemma agent_calls_spec {float : Type} (settings : Settings) (vault_agent : Agent)
    (entropy : N) (now : Z) (request : ChatCompletionRequest float) :
  agent_calls (chat_completions settings vault_agent entropy now request)
  = expected_agent_calls settings request.
Proof.
  unfold expected_agent_calls.
  destruct (stream request) eqn:Hs.
  - now rewrite (chat_completions_stream _ _ _ _ _ Hs).
  - destruct (rejected (messages request)) eqn:Hr.
    + destruct (chat_completions_rejected settings vault_agent entropy now request
                  Hs Hr) as (msg & Ha & ->).
      now rewrite Ha.
    + destruct (adapter_accepts _ Hr) as (pre & last & post & _ & _ & _ & Ha).
      rewrite (chat_completions_accepted settings vault_agent entropy now request
                 _ _ _ Hs Ha), Ha.
      unfold agent_calls, after_agent. cbn [events fst outcome snd ok].
      destruct (vault_agent _ _ _) as [e|[r|]]; reflexivity.
Qed.

(** C6: two requests that differ only in [temperature], [max_tokens],
    [top_p] and [frequency_penalty] lead to the same calls of the agent,
    with the same prompt, history and dependency bundle, whatever the agent
    answers; none of the four parameters reaches the agent, and the whole
    run is the same. *)
Theorem tuning_parameters_do_not_reach_agent :
  forall (float : Type) (settings : Settings) (agent1 agent2 : Agent)
         (entropy1 entropy2 : N) (now1 now2 : Z)
         (request1 request2 : ChatCompletionRequest float),
    same_but_tuning request1 request2 ->
    agent_calls (chat_completions settings agent1 entropy1 now1 request1)
    = agent_calls (chat_completions settings agent2 entropy2 now2 request2)
    /\ agent_calls (chat_completions settings agent1 entropy1 now1 request1)
       = expected_agent_calls settings request1
    /\ chat_completions settings agent1 entropy1 now1 request1
       = chat_completions settings agent1 entropy1 now1 request2.
Proof.
  intros float settings agent1 agent2 entropy1 entropy2 now1 now2
    [m1 ms1 s1 t1 mt1 tp1 fp1] [m2 ms2 s2 t2 mt2 tp2 fp2] (Hm & Hms & Hs).
  cbn [model messages stream] in Hm, Hms, Hs. subst m2 ms2 s2.
  split; [|split].
  - now rewrite !agent_calls_spec.
  - apply agent_calls_spec.
  - reflexivity.
Qed.

Lemma tuning_parameters_do_not_reach_agent_witness :
  let settings := {| obsidian_vault_path := "/vault"; api_key := "k" |} in
  let agent : Agent :=
    fun _ _ _ =>
      ok (Some {| data := "answer";
                  run_usage := {| request_tokens := Some 10%Z;
                                  response_tokens := Some 5%Z;
                                  usage_total_tokens := Some 15%Z |} |}) in
  let request1 : ChatCompletionRequest Z :=
    {| model := "paddy";
       messages := [{| role := user; content := Str "Hello" |}];
       stream := false;
       temperature := None; max_tokens := None; top_p := None;
       frequency_penalty := None |} in
  let request2 : ChatCompletionRequest Z :=
    {| model := "paddy";
       messages := [{| role := user; content := Str "Hello" |}];
       stream := false;
       temperature := Some 2%Z; max_tokens := Some 1%Z; top_p := Some 1%Z;
       frequency_penalty := Some 0%Z |} in
  same_but_tuning request1 request2
  /\ agent_calls (chat_completions settings agent 0 0 request1)
     = agent_calls (chat_completions settings agent 1 1 request2)
  /\ agent_calls (chat_completions settings agent 0 0 request1)
     = [AgentCalled "Hello" [] {| vault_path := "/vault" |}].
Proof.
  intros settings agent request1 request2.
  assert (H : same_but_tuning request1 request2) by (repeat split).
  split; [exact H|].
  destruct (tuning_parameters_do_not_reach_agent Z settings agent agent 0 1 0 1
              request1 request2 H) as (H1 & H2 & _).
  split; [exact H1|exact H2].
Defined.

(** ** The domain exception handler *)

Lemma issubclass_exclusive (cls : ExcClass) :
  issubclass cls DNoteNotFound = true -> issubclass cls DVaultPath = false.
Proof.
  induction cls as [| | | |name base IH]; cbn; try discriminate; auto.
Qed.

Lemma issubclass_paddy (cls : ExcClass) : issubclass cls DPaddy = true.
Proof.
  induction cls as [| | | |name base IH]; cbn; auto.
Qed.

Lemma handler_status (cls : ExcClass) :
  (if issubclass cls DNoteNotFound then 404
   else if issubclass cls DVaultPath then 400 else 500)%Z
  = expected_status cls.
Proof.
  induction cls as [| | | |name base IH]; cbn; auto.
Qed.

(** C7: the handler answers a [NoteNotFoundError] with 404, a
    [VaultPathError] with 400 and any other exception of the [PaddyError]
    hierarchy with 500, and for each of them logs the error type, the
    message, the request path and the method before it returns the
    response. *)
Theorem paddy_exception_handler_status_and_log :
  forall (request : Request) (exc : PaddyExc),
  exists response : JSONResponse,
    paddy_exception_handler request exc = ([raised_log request exc], ok response)
    /\ status_code response = expected_status (exc_class exc)
    /\ (isinstance exc DNoteNotFound = true -> status_code response = 404%Z)
    /\ (isinstance exc DVaultPath = true -> status_code response = 400%Z)
    /\ (isinstance exc DNoteNotFound = false ->
        isinstance exc DVaultPath = false -> status_code response = 500%Z)
    /\ isinstance exc DPaddy = true.
Proof.
  intros request exc. eexists. split; [reflexivity|].
  cbn [status_code]. unfold isinstance.
  split; [apply handler_status|].
  split; [now intros ->|]. split; [|split].
  - intros H. destruct (issubclass (exc_class exc) DNoteNotFound) eqn:E.
    + apply issubclass_exclusive in E. congruence.
    + now rewrite H.
  - now intros -> ->.
  - apply issubclass_paddy.
Qed.

Lemma paddy_exception_handler_status_and_log_witness :
  let request := {| url_path := "/notes/a.md"; method := "GET" |} in
  let exc := {| exc_class := Subclass "AttachmentNotFoundError" NoteNotFoundError;
                exc_message := "Missing note" |} in
  isinstance exc DNoteNotFound = true
  /\ exists response : JSONResponse,
       paddy_exception_handler request exc = ([raised_log request exc], ok response)
       /\ status_code response = 404%Z.
Proof.
  intros request exc.
  assert (H : isinstance exc DNoteNotFound = true) by reflexivity.
  split; [exact H|].
  destruct (paddy_exception_handler_status_and_log request exc)
    as (response & Hrun & _ & H404 & _).
  exists response. split; [exact Hrun|exact (H404 H)].
Defined.

(** ** Identifiers *)

Section Identifiers.

Local Open Scope N_scope.

Lemma testbit_above (n : N) :
  n < 2 ^ 128 -> forall k, 128 <= k -> N.testbit n k = false.
Proof.
  intros Hn k Hk. rewrite <- (N.mod_small n (2 ^ 128)) by exact Hn.
  now apply N.mod_pow2_bits_high.
Qed.

Lemma bound_of_bits (n : N) :
  (forall k, 128 <= k -> N.testbit n k = false) -> n < 2 ^ 128.
Proof.
  intros H.
  assert (E : n = n mod 2 ^ 128).
  { apply N.bits_inj. intros k. destruct (N.lt_ge_cases k 128) as [Hk|Hk].
    - now rewrite N.mod_pow2_bits_low.
    - now rewrite N.mod_pow2_bits_high, H. }
  rewrite E. apply N.mod_lt. discriminate.
Qed.

Lemma testbit_constant (c k : N) :
  N.log2 c < 128 -> 128 <= k -> N.testbit c k = false.
Proof.
  intros Hc Hk. apply N.bits_above_log2. now apply N.lt_le_trans with 128.
Qed.

(** A UUID fits in 128 bits. *)
Lemma uuid4_bound (entropy : N) : uuid4 entropy < 2 ^ 128.
Proof.
  apply bound_of_bits. intros k Hk. unfold uuid4.
  rewrite N.lor_spec, N.ldiff_spec, N.lor_spec, N.ldiff_spec.
  rewrite N.mod_pow2_bits_high by exact Hk.
  rewrite (testbit_constant (N.shiftl 0x8000 48)) by (reflexivity || exact Hk).
  rewrite (testbit_constant (N.shiftl 4 76)) by (reflexivity || exact Hk).
  reflexivity.
Qed.

Lemma hex_width_bound (n : N) : n < 2 ^ 128 -> Nat.max 32 (hex_width n) = 32%nat.
Proof.
  intros Hn. unfold hex_width. destruct (n =? 0) eqn:E; [reflexivity|].
  apply N.eqb_neq in E.
  assert (Hl : N.log2 n < 128) by (apply N.log2_lt_pow2; [lia|exact Hn]).
  assert (Hd : N.log2 n / 4 < 32) by (apply N.Div0.div_lt_upper_bound; lia).
  lia.
Qed.

Lemma substring_firstn (k : nat) (l : list ascii) :
  substring 0 k (string_of_list_ascii l) = string_of_list_ascii (firstn k l).
Proof.
  revert l. induction k as [|k IH]; intros [|c l]; cbn; try reflexivity.
  now rewrite IH.
Qed.

Lemma length_string_of_list_ascii (l : list ascii) :
  String.length (string_of_list_ascii l) = List.length l.
Proof.
  induction l as [|c l IH]; cbn; [reflexivity|now rewrite IH].
Qed.

(** The part of the identifier after the tag, digit by digit. *)
Lemma hex_prefix_any (n : N) :
  substring 0 29 (format_032x n)
  = string_of_list_ascii
      (map (fun i => hex_digit (nibble n i))
           (firstn 29 (rev (seq 0 (Nat.max 32 (hex_width n)))))).
Proof.
  unfold format_032x. now rewrite substring_firstn, firstn_map.
Qed.

Lemma hex_prefix (n : N) :
  n < 2 ^ 128 ->
  substring 0 29 (format_032x n)
  = string_of_list_ascii (map (fun i => hex_digit (nibble n i)) (rev (seq 3 29))).
Proof.
  intros Hn. rewrite hex_prefix_any, hex_width_bound by exact Hn. reflexivity.
Qed.

Lemma nibble_lt (n : N) (i : nat) : nibble n i < 16.
Proof.
  unfold nibble. change 15 with (N.ones 4). rewrite N.land_ones.
  apply N.mod_lt. discriminate.
Qed.

Lemma hex_digit_lower (d : N) : d < 16 -> is_lower_hex (hex_digit d) = true.
Proof.
  intros Hd. unfold hex_digit.
  assert (Hk : (N.to_nat d < 16)%nat) by lia.
  destruct (N.to_nat d) as [|k]; [reflexivity|].
  do 15 (destruct k as [|k]; [reflexivity|]). lia.
Qed.

Lemma hex_alphabet_NoDup : NoDup hex_alphabet.
Proof.
  unfold hex_alphabet. cbn [list_ascii_of_string].
  repeat (constructor; [cbn [In]; intuition discriminate|]).
  constructor.
Qed.

Lemma hex_digit_inj (d1 d2 : N) :
  d1 < 16 -> d2 < 16 -> hex_digit d1 = hex_digit d2 -> d1 = d2.
Proof.
  intros H1 H2 E. apply N2Nat.inj.
  apply (proj1 (NoDup_nth hex_alphabet "0"%char) hex_alphabet_NoDup);
    [cbn; lia|cbn; lia|exact E].
Qed.

Lemma testbit_15 (j : N) : N.testbit 15 j = (j <? 4).
Proof.
  change 15 with (N.ones 4). destruct (N.ltb_spec j 4) as [H|H].
  - now apply N.ones_spec_low.
  - now apply N.ones_spec_high.
Qed.

Lemma nibble_spec (n : N) (i : nat) (j : N) :
  N.testbit (nibble n i) j = N.testbit n (j + 4 * N.of_nat i) && (j <? 4).
Proof.
  unfold nibble. now rewrite N.land_spec, N.shiftr_spec', testbit_15.
Qed.

Lemma nibble_high (n : N) (i : nat) :
  (3 <= i)%nat ->
  nibble n i = N.land (N.shiftr (N.shiftr n 12) (4 * N.of_nat i - 12)) 15.
Proof.
  intros Hi. unfold nibble. rewrite N.shiftr_shiftr. do 2 f_equal. lia.
Qed.

(** Two 128-bit integers have the same 29 leading hexadecimal digits
    exactly when they agree above their 12 low bits. *)
Lemma leading_digits_iff (n1 n2 : N) :
  n1 < 2 ^ 128 -> n2 < 2 ^ 128 ->
  (forall i, In i (rev (seq 3 29)) ->
     hex_digit (nibble n1 i) = hex_digit (nibble n2 i))
  <-> N.shiftr n1 12 = N.shiftr n2 12.
Proof.
  intros H1 H2. split.
  - intros H. apply N.bits_inj. intros k. rewrite !N.shiftr_spec'.
    destruct (N.lt_ge_cases (k + 12) 128) as [Hk|Hk].
    + set (i := N.to_nat ((k + 12) / 4)). set (j := (k + 12) mod 4).
      assert (Hdiv : k + 12 = 4 * ((k + 12) / 4) + j)
        by (apply N.div_mod; discriminate).
      assert (Hj : j < 4) by (apply N.mod_lt; discriminate).
      assert (Hq : 3 <= (k + 12) / 4 < 32) by lia.
      assert (Hin : In i (rev (seq 3 29))).
      { apply in_rev. rewrite rev_involutive. apply in_seq. subst i. lia. }
      assert (E : nibble n1 i = nibble n2 i).
      { apply hex_digit_inj; [apply nibble_lt|apply nibble_lt|now apply H]. }
      apply (f_equal (fun x => N.testbit x j)) in E.
      rewrite !nibble_spec in E.
      apply N.ltb_lt in Hj. rewrite Hj, !andb_true_r in E.
      replace (j + 4 * N.of_nat i) with (k + 12) in E by (subst i; lia).
      exact E.
    + now rewrite !testbit_above.
  - intros E i Hi. apply in_rev in Hi. apply in_seq in Hi.
    rewrite !nibble_high by lia. now rewrite E.
Qed.

End Identifiers.

Lemma append_cancel_l (p a b : string) : (p ++ a = p ++ b)%string -> a = b.
Proof.
  induction p as [|c p IH]; cbn; intros H; [exact H|].
  injection H as H. now apply IH.
Qed.

Example response_id_of_zero_entropy :
  response_id 0 = "chatcmpl-00000000000040008000000000000".
Proof. reflexivity. Qed.

Lemma response_id_eq_iff (entropy1 entropy2 : N) :
  response_id entropy1 = response_id entropy2
  <-> N.shiftr (uuid4 entropy1) 12 = N.shiftr (uuid4 entropy2) 12.
Proof.
  unfold response_id.
  rewrite !hex_prefix by apply uuid4_bound.
  rewrite <- (leading_digits_iff _ _ (uuid4_bound entropy1) (uuid4_bound entropy2)).
  rewrite <- map_ext_in_iff.
  split.
  - intros H. apply append_cancel_l in H.
    apply (f_equal list_ascii_of_string) in H.
    now rewrite !list_ascii_of_string_of_list_ascii in H.
  - now intros ->.
Qed.

Lemma or_zero_spec (x : option Z) : or_zero x = count_or_zero x.
Proof.
  destruct x as [n|]; [|reflexivity]. cbn.
  destruct (Z.eqb_spec n 0) as [->|_]; reflexivity.
Qed.

(** C10: every identifier [build_chat_response] produces is the
    nine-character tag ["chatcmpl-"] followed by exactly 29 lowercase
    hexadecimal characters, 38 characters in all. *)
Theorem response_id_format :
  forall (entropy : N) (now : Z) (output model : string)
         (request_tokens response_tokens total_tokens : option Z),
    let response :=
      build_chat_response entropy now output model
        request_tokens response_tokens total_tokens in
    String.length (id response) = 38%nat
    /\ String.length "chatcmpl-" = 9%nat
    /\ exists suffix : string,
         id response = ("chatcmpl-" ++ suffix)%string
         /\ String.length suffix = 29%nat
         /\ Forall (fun c => is_lower_hex c = true) (list_ascii_of_string suffix).
Proof.
  intros entropy now output model request_tokens response_tokens total_tokens
    response.
  subst response. cbn [build_chat_response mkChatCompletionResponse id].
  unfold response_id. set (n := uuid4 entropy).
  assert (Hlen : String.length (substring 0 29 (format_032x n)) = 29%nat).
  { rewrite hex_prefix_any, length_string_of_list_ascii, length_map, length_firstn,
      length_rev, length_seq. lia. }
  split; [cbn [append String.length]; now rewrite Hlen|].
  split; [reflexivity|].
  exists (substring 0 29 (format_032x n)). split; [reflexivity|]. split; [exact Hlen|].
  rewrite hex_prefix_any, list_ascii_of_string_of_list_ascii.
  apply Forall_forall. intros c Hc. apply in_map_iff in Hc as (i & <- & _).
  apply hex_digit_lower, nibble_lt.
Qed.

(** C3, as the code has it: the response has the object ["chat.completion"]
    and exactly one choice, with finish reason ["stop"], role
    ["assistant"] and the given output as content; a null token count
    becomes zero and any other is passed through; the identifier starts
    with ["chatcmpl-"]; and the identifiers of two calls differ exactly
    when the UUIDs the calls draw differ in their first 29 hexadecimal
    digits, that is, above their 12 low bits. *)
Theorem build_chat_response_shape :
  forall (entropy : N) (now : Z) (output model : string)
         (request_tokens response_tokens total_tokens : option Z),
    let response :=
      build_chat_response entropy now output model
        request_tokens response_tokens total_tokens in
    object response = "chat.completion"
    /\ (exists choice : Choice,
          choices response = [choice]
          /\ finish_reason choice = stop
          /\ rm_role (message choice) = "assistant"
          /\ rm_content (message choice) = output)
    /\ prompt_tokens (usage response) = count_or_zero request_tokens
    /\ completion_tokens (usage response) = count_or_zero response_tokens
    /\ Models.total_tokens (usage response) = count_or_zero total_tokens
    /\ (exists suffix : string, id response = ("chatcmpl-" ++ suffix)%string)
    /\ forall (entropy' : N) (now' : Z) (output' model' : string)
              (request_tokens' response_tokens' total_tokens' : option Z),
         id response
         = id (build_chat_response entropy' now' output' model'
                 request_tokens' response_tokens' total_tokens')
         <-> N.shiftr (uuid4 entropy) 12 = N.shiftr (uuid4 entropy') 12.
Proof.
  intros entropy now output model request_tokens response_tokens total_tokens
    response.
  subst response. cbn [build_chat_response mkChatCompletionResponse id object
                       choices usage prompt_tokens completion_tokens
                       Models.total_tokens].
  split; [reflexivity|]. split.
  { eexists. split; [reflexivity|]. repeat split. }
  rewrite !or_zero_spec. do 3 (split; [reflexivity|]). split.
  { unfold response_id. eexists. reflexivity. }
  intros. apply response_id_eq_iff.
Qed.

(** C3 as stated fails: two calls that draw different UUIDs can still
    produce the same identifier, because the last three hexadecimal digits
    of the UUID are cut off. *)
Lemma distinct_uuids_same_identifier :
  uuid4 0 <> uuid4 1
  /\ id (build_chat_response 0 1700000000 "first" "paddy" None None None)
     = id (build_chat_response 1 1700000001 "second" "paddy" None None None).
Proof.
  split; [discriminate|reflexivity].
Qed.

(** * Further properties of the code *)

Import RunSpec.

(** ** The adapter's bookkeeping *)

Lemma retained_or_system (l : list ChatMessage) :
  (Z.of_nat (List.length (filter retained l)) + count_system l)%Z = len l.
Proof.
  unfold count_system, len. induction l as [|m l IH]; [reflexivity|].
  cbn [filter]. unfold retained at 1.
  destruct (role_eqb (role m) system); cbn [negb List.length]; lia.
Qed.

Lemma count_system_middle (pre post : list ChatMessage) (last : ChatMessage) :
  role last = user ->
  count_system (pre ++ last :: post) = count_system (pre ++ post).
Proof.
  intros H. rewrite !count_system_app, count_system_cons, H. reflexivity.
Qed.

(** X1: when the adapter returns, it logs one record whose three counts
    are the number of messages received, the length of the history and the
    number of system messages; every message is accounted for once: the
    prompt, a history record, or a skipped system message. *)
Theorem adapter_accounts_for_every_message (messages : list ChatMessage) :
  rejected messages = false ->
  exists prompt history,
    openai_messages_to_pydantic messages
    = ([converted_log (len messages) (len history) (count_system messages)],
       ok (prompt, history))
    /\ len messages = (1 + len history + count_system messages)%Z.
Proof.
  intros H.
  destruct (adapter_accepts _ H) as (pre & last & post & -> & Hl & Hp & Hrun).
  exists (spec_text (content last)), (spec_history (pre ++ post)).
  rewrite (count_system_middle _ _ _ Hl). split; [exact Hrun|].
  unfold len at 2. rewrite length_spec_history.
  pose proof (retained_or_system (pre ++ post)) as Hsum.
  unfold len in *. rewrite length_app in *. cbn [List.length]. lia.
Qed.

Lemma adapter_accounts_for_every_message_witness :
  let messages :=
    [{| role := system; content := Str "S" |};
     {| role := user; content := Str "Q1" |};
     {| role := assistant; content := Str "A1" |};
     {| role := system; content := Str "T" |};
     {| role := user; content := Str "Q2" |}] in
  rejected messages = false
  /\ exists prompt history,
       openai_messages_to_pydantic messages
       = ([converted_log 5 (len history) 2], ok (prompt, history))
       /\ 5%Z = (1 + len history + 2)%Z.
Proof.
  intros messages.
  assert (H : rejected messages = false) by reflexivity.
  split; [exact H|].
  exact (adapter_accounts_for_every_message messages H).
Defined.

(** X2: on an input it rejects the adapter logs nothing, and the text of
    its error tells the two cases apart; the route hands that text on as
    the detail of its 400 answer, after logging the request and before any
    call to the agent. *)
Theorem adapter_rejects_silently :
  forall (float : Type) (settings : Settings) (vault_agent : Agent)
         (entropy : N) (now : Z) (request : ChatCompletionRequest float),
    rejected (messages request) = true ->
    let text :=
      match messages request with
      | [] => "Messages array must not be empty."
      | _ :: _ => "Messages must contain at least one user message."
      end in
    openai_messages_to_pydantic (messages request) = ([], throw (ValueError text))
    /\ (stream request = false ->
        chat_completions settings vault_agent entropy now request
        = ([received_log request; AdapterCalled (messages request)],
           throw (HTTPException 400 text))).
Proof.
  intros float settings vault_agent entropy now request Hr text. subst text.
  pose proof (adapter_rejects _ Hr) as Ha. split; [exact Ha|].
  intros Hs.
  destruct (chat_completions_rejected settings vault_agent entropy now request Hs Hr)
    as (msg & Ha' & Hrun).
  rewrite Ha in Ha'. injection Ha' as <-. exact Hrun.
Qed.

Lemma adapter_rejects_silently_witness :
  let settings := {| obsidian_vault_path := "/vault"; api_key := "k" |} in
  let vault_agent : Agent := fun _ _ _ => ok None in
  let request : ChatCompletionRequest nat :=
    {| model := "paddy";
       messages := [{| role := system; content := Str "System prompt" |};
                    {| role := assistant; content := Str "Previous response" |}];
       stream := false;
       temperature := None; max_tokens := None; top_p := None;
       frequency_penalty := None |} in
  rejected (messages request) = true
  /\ openai_messages_to_pydantic (messages request)
     = ([], throw (ValueError "Messages must contain at least one user message."))
  /\ chat_completions settings vault_agent 0 0 request
     = ([received_log request; AdapterCalled (messages request)],
        throw (HTTPException 400 "Messages must contain at least one user message.")).
Proof.
  intros settings vault_agent request.
  assert (H : rejected (messages request) = true) by reflexivity.
  split; [exact H|].
  destruct (adapter_rejects_silently nat settings vault_agent 0 0 request H)
    as (Ha & Hroute).
  split; [exact Ha|exact (Hroute eq_refl)].
Defined.

Lemma no_user_filter (f : ChatMessage -> bool) (l : list ChatMessage) :
  no_user l -> no_user (filter f l).
Proof.
  unfold no_user. rewrite !Forall_forall. intros H x Hx.
  apply filter_In in Hx as [Hx _]. now apply H.
Qed.

(** X3: system messages have no influence on what the adapter returns:
    on an input with a user message, removing every system message leaves
    the prompt and the history as they were. *)
Theorem system_messages_do_not_matter (messages : list ChatMessage) :
  existsb is_user messages = true ->
  outcome (openai_messages_to_pydantic (filter retained messages))
  = outcome (openai_messages_to_pydantic messages).
Proof.
  intros H.
  destruct (last_user_split _ H) as (pre & last & post & -> & Hl & Hp).
  rewrite filter_app. cbn [filter]. unfold retained at 2. rewrite Hl.
  cbn [role_eqb negb].
  rewrite !adapter_run by (try assumption; now apply no_user_filter).
  cbn [outcome snd]. rewrite <- filter_app, spec_history_retained. reflexivity.
Qed.

Lemma system_messages_do_not_matter_witness :
  let q := {| role := user; content := Str "Q" |} in
  let a := {| role := assistant; content := Str "A" |} in
  let sy := {| role := system; content := Str "You are terse." |} in
  existsb is_user [sy; q; a; sy; q] = true
  /\ outcome (openai_messages_to_pydantic [q; a; q])
     = outcome (openai_messages_to_pydantic [sy; q; a; sy; q]).
Proof.
  intros q a sy.
  assert (H : existsb is_user [sy; q; a; sy; q] = true) by reflexivity.
  split; [exact H|].
  exact (system_messages_do_not_matter [sy; q; a; sy; q] H).
Defined.

(** X4: a conversation grows turn by turn.  When the list ends with the
    user message [question] and the adapter returns [(prompt, history)]
    on it, then on the list extended with the assistant's [answer] and a
    new user message the adapter returns the new message's text as prompt
    and [history] followed by the request for [prompt] and the response
    for the answer. *)
Theorem history_grows_by_one_exchange
    (earlier : list ChatMessage) (question answer next : ChatMessage) :
  role question = user -> role answer = assistant -> role next = user ->
  exists prompt history answer_text next_text,
    outcome (openai_messages_to_pydantic (earlier ++ [question])) = ok (prompt, history)
    /\ text_content answer = ok answer_text
    /\ text_content next = ok next_text
    /\ outcome (openai_messages_to_pydantic (earlier ++ [question] ++ [answer; next]))
       = ok (next_text,
             history ++ [ModelRequest [UserPromptPart prompt];
                         ModelResponse [TextPart answer_text]]).
Proof.
  intros Hq Ha Hn.
  exists (spec_text (content question)), (spec_history earlier),
    (spec_text (content answer)), (spec_text (content next)).
  split.
  { rewrite (adapter_run earlier [] question Hq (Forall_nil _)).
    cbn [outcome snd]. now rewrite app_nil_r. }
  split; [apply text_content_spec|]. split; [apply text_content_spec|].
  replace (earlier ++ [question] ++ [answer; next])
    with ((earlier ++ [question; answer]) ++ next :: []) by now rewrite <- app_assoc.
  rewrite (adapter_run _ [] next Hn (Forall_nil _)). cbn [outcome snd].
  rewrite app_nil_r. unfold spec_history. rewrite flat_map_app. cbn [flat_map].
  unfold record_of at 2 3. now rewrite Hq, Ha.
Qed.

Lemma history_grows_by_one_exchange_witness :
  let q1 := {| role := user; content := Str "Q1" |} in
  let a1 := {| role := assistant; content := Str "A1" |} in
  let q2 := {| role := user; content := Str "Q2" |} in
  let a2 := {| role := assistant; content := Str "A2" |} in
  let q3 := {| role := user; content := Str "Q3" |} in
  role q2 = user /\ role a2 = assistant /\ role q3 = user
  /\ exists prompt history answer_text next_text,
       outcome (openai_messages_to_pydantic ([q1; a1] ++ [q2])) = ok (prompt, history)
       /\ text_content a2 = ok answer_text
       /\ text_content q3 = ok next_text
       /\ outcome (openai_messages_to_pydantic ([q1; a1] ++ [q2] ++ [a2; q3]))
          = ok (next_text,
                history ++ [ModelRequest [UserPromptPart prompt];
                            ModelResponse [TextPart answer_text]]).
Proof.
  intros q1 a1 q2 a2 q3.
  split; [reflexivity|]. split; [reflexivity|]. split; [reflexivity|].
  exact (history_grows_by_one_exchange [q1; a1] q2 a2 q3 eq_refl eq_refl eq_refl).
Defined.

(** ** More on normalising content *)

(** X5: the text of a list of parts is the text of its first part list
    followed by the text of the rest: normalising works part by part, so
    splitting a message's parts in two and normalising each side gives the
    two halves of the text. *)
Theorem text_content_of_appended_parts :
  forall (r : Role) (front back : list ContentPart),
    text_content {| role := r; content := Parts (front ++ back) |}
    = rbind (text_content {| role := r; content := Parts front |}) (fun a =>
        rbind (text_content {| role := r; content := Parts back |}) (fun b =>
          ok (a ++ b)%string)).
Proof.
  intros r front back. rewrite !text_content_spec. cbn [content rbind ok].
  unfold spec_text. now rewrite filter_app, map_app, concat_empty_app.
Qed.

(** X6: an empty prompt is not an error.  When the text of the last user
    message is empty (an empty string, or parts none of which carries
    text, such as images alone), the adapter returns the empty string as
    prompt, and the route calls the agent with it. *)
Theorem empty_prompt_is_accepted :
  forall (float : Type) (settings : Settings) (vault_agent : Agent)
         (entropy : N) (now : Z) (request : ChatCompletionRequest float)
         (pre post : list ChatMessage) (last : ChatMessage),
    messages request = pre ++ last :: post ->
    role last = user ->
    no_user post ->
    text_content last = ok "" ->
    stream request = false ->
    outcome (openai_messages_to_pydantic (messages request))
    = ok ("", spec_history (pre ++ post))
    /\ agent_calls (chat_completions settings vault_agent entropy now request)
       = [AgentCalled "" (spec_history (pre ++ post))
            {| vault_path := obsidian_vault_path settings |}].
Proof.
  intros float settings vault_agent entropy now request pre post last
    Hm Hl Hp Ht Hs.
  pose proof (adapter_run pre post last Hl Hp) as Hrun.
  rewrite text_content_spec in Ht. injection Ht as Ht.
  rewrite Ht, <- Hm in Hrun.
  split; [now rewrite Hrun|].
  rewrite agent_calls_spec. unfold expected_agent_calls. now rewrite Hs, Hrun.
Qed.

Lemma empty_prompt_is_accepted_witness :
  let settings := {| obsidian_vault_path := "/vault"; api_key := "k" |} in
  let vault_agent : Agent := fun _ _ _ => ok None in
  let image :=
    {| part_type := "image_url"; text := None;
       image_url := Some [("url", "data:image/png;base64,...")] |} in
  let last := {| role := user; content := Parts [image] |} in
  let request : ChatCompletionRequest nat :=
    {| model := "paddy";
       messages := [last];
       stream := false;
       temperature := None; max_tokens := None; top_p := None;
       frequency_penalty := None |} in
  messages request = [] ++ last :: []
  /\ role last = user
  /\ no_user []
  /\ text_content last = ok ""
  /\ stream request = false
  /\ outcome (openai_messages_to_pydantic (messages request)) = ok ("", [])
  /\ agent_calls (chat_completions settings vault_agent 0 0 request)
     = [AgentCalled "" [] {| vault_path := "/vault" |}].
Proof.
  intros settings vault_agent image last request.
  assert (H1 : messages request = [] ++ last :: []) by reflexivity.
  assert (H2 : role last = user) by reflexivity.
  assert (H3 : no_user []) by constructor.
  assert (H4 : text_content last = ok "") by reflexivity.
  assert (H5 : stream request = false) by reflexivity.
  split; [exact H1|]. split; [exact H2|]. split; [exact H3|].
  split; [exact H4|]. split; [exact H5|].
  exact (empty_prompt_is_accepted nat settings vault_agent 0 0 request
           [] [] last H1 H2 H3 H4 H5).
Defined.

(** X7: the image references of a message are never read: replacing the
    [image_url] of every part by anything leaves the normalised text, and
    so the adapter's result, unchanged. *)
Theorem image_references_are_ignored :
  forall (r : Role) (parts : list ContentPart)
         (img : ContentPart -> option (list (string * string))),
    text_content
      {| role := r;
         content := Parts (map (fun p => with_image_url (img p) p) parts) |}
    = text_content {| role := r; content := Parts parts |}.
Proof.
  intros r parts img. rewrite !text_content_spec. cbn [content]. unfold spec_text.
  do 2 f_equal. induction parts as [|p parts IH]; [reflexivity|].
  cbn [map filter].
  change (is_text_part (with_image_url (img p) p)) with (is_text_part p).
  destruct (is_text_part p); [|exact IH].
  cbn [map]. now rewrite IH.
Qed.

(** ** The UUID inside an identifier *)

Section UuidDigits.

Local Open Scope N_scope.

Lemma uuid4_testbit (entropy k : N) :
  N.testbit (uuid4 entropy) k
  = ((N.testbit (entropy mod 2 ^ 128) k && negb (N.testbit (N.shiftl 0xc000 48) k)
      || N.testbit (N.shiftl 0x8000 48) k)
     && negb (N.testbit (N.shiftl 0xf000 64) k)
     || N.testbit (N.shiftl 4 76) k)%bool.
Proof.
  unfold uuid4. now rewrite N.lor_spec, N.ldiff_spec, N.lor_spec, N.ldiff_spec.
Qed.

Ltac uuid_bit :=
  rewrite nibble_spec, uuid4_testbit;
  match goal with
  | |- context [N.testbit (?e mod 2 ^ 128) ?k] =>
      generalize (N.testbit (e mod 2 ^ 128) k)
  end;
  let b := fresh "b" in intros b; destruct b; reflexivity.

(** The version nibble of a UUID is 4. *)
Lemma nibble_version (entropy : N) : nibble (uuid4 entropy) 19 = 4.
Proof.
  apply N.bits_inj. intros j.
  destruct (N.lt_ge_cases j 4) as [Hj|Hj].
  - assert (H : j = 0 \/ j = 1 \/ j = 2 \/ j = 3) by lia.
    destruct H as [ -> | [ -> | [ -> | -> ] ] ]; uuid_bit.
  - rewrite nibble_spec. apply N.ltb_ge in Hj as Hj'. rewrite Hj', andb_false_r.
    symmetry. apply N.bits_above_log2. cbn. lia.
Qed.

(** The two high bits of the variant nibble are [10]. *)
Lemma nibble_variant (entropy : N) :
  N.testbit (nibble (uuid4 entropy) 15) 3 = true
  /\ N.testbit (nibble (uuid4 entropy) 15) 2 = false.
Proof.
  split; uuid_bit.
Qed.

Lemma hex_digit_variant (k : nat) :
  (k < 16)%nat ->
  N.testbit (N.of_nat k) 3 = true -> N.testbit (N.of_nat k) 2 = false ->
  In (hex_digit (N.of_nat k)) ["8"; "9"; "a"; "b"]%char.
Proof.
  intros Hk.
  do 16 (destruct k as [|k];
         [cbn; intros H3 H2; try discriminate; auto 6|]).
  lia.
Qed.

End UuidDigits.

(** X8: every identifier shows the UUID it was cut from: after the tag,
    its thirteenth hexadecimal character is the version digit [4] and its
    seventeenth is a variant digit, one of [8 9 a b]. *)
Theorem response_id_carries_version_and_variant :
  forall (entropy : N) (now : Z) (output model : string)
         (request_tokens response_tokens total_tokens : option Z),
    let response :=
      build_chat_response entropy now output model
        request_tokens response_tokens total_tokens in
    String.get (9 + 12) (id response) = Some "4"%char
    /\ exists c : ascii,
         String.get (9 + 16) (id response) = Some c
         /\ In c ["8"; "9"; "a"; "b"]%char.
Proof.
  intros entropy now output model request_tokens response_tokens total_tokens
    response.
  subst response. cbn [build_chat_response mkChatCompletionResponse id].
  unfold response_id. rewrite hex_prefix by apply uuid4_bound.
  set (digit := fun i => hex_digit (nibble (uuid4 entropy) i)).
  cbn [seq rev app map string_of_list_ascii append String.get Nat.add].
  split.
  - unfold digit. now rewrite nibble_version.
  - exists (digit 15%nat). split; [reflexivity|]. unfold digit.
    destruct (nibble_variant entropy) as [H3 H2].
    pose proof (nibble_lt (uuid4 entropy) 15) as Hlt.
    rewrite <- (N2Nat.id (nibble (uuid4 entropy) 15)) in H3, H2 |- *.
    apply hex_digit_variant; [lia|exact H3|exact H2].
Qed.

(** ** More on the chat route *)

Lemma HTTPBearer_cases (authorization : option string) :
  (exists detail, HTTPBearer authorization = ([], throw (HTTPException 403 detail)))
  \/ (exists bearer, HTTPBearer authorization = ret bearer /\ credentials bearer <> "").
Proof.
  unfold HTTPBearer.
  destruct (get_authorization_scheme_param authorization) as [sch cred].
  destruct (truthy_str authorization && nonempty sch && nonempty cred) eqn:E;
    cbn [negb].
  - destruct (lower sch =? "bearer")%string; cbn [negb].
    + right. eexists. split; [reflexivity|]. cbn [credentials].
      apply andb_true_iff in E as [_ E]. now destruct cred.
    + left. eexists. reflexivity.
  - left. eexists. reflexivity.
Qed.

(** The three shapes a run of the route body can have. *)
Lemma chat_completions_cases {float : Type} (settings : Settings) (vault_agent : Agent)
    (entropy : N) (now : Z) (request : ChatCompletionRequest float) :
  let run := chat_completions settings vault_agent entropy now request in
  (stream request = true
   /\ run = ([received_log request], throw (HTTPException 400 streaming_detail)))
  \/ (stream request = false
      /\ exists msg,
           openai_messages_to_pydantic (messages request) = ([], throw (ValueError msg))
           /\ run = ([received_log request; AdapterCalled (messages request)],
                     throw (HTTPException 400 msg)))
  \/ (stream request = false
      /\ exists prompt history skipped,
           let deps := {| vault_path := obsidian_vault_path settings |} in
           let rest :=
             after_agent entropy now (model request) (vault_agent prompt history deps) in
           openai_messages_to_pydantic (messages request)
           = ([converted_log (len (messages request)) (len history) skipped],
              ok (prompt, history))
           /\ run = ([received_log request; AdapterCalled (messages request);
                      converted_log (len (messages request)) (len history) skipped;
                      started_log prompt history; AgentCalled prompt history deps]
                       ++ events rest,
                     outcome rest)).
Proof.
  intros run. subst run.
  destruct (stream request) eqn:Hs.
  - left. split; [reflexivity|]. now apply chat_completions_stream.
  - right. destruct (rejected (messages request)) eqn:Hr.
    + left. split; [reflexivity|]. now apply chat_completions_rejected.
    + right. split; [reflexivity|].
      destruct (adapter_accepts _ Hr) as (pre & last & post & _ & _ & _ & Ha).
      eexists _, _, _. cbv zeta. split; [exact Ha|].
      now rewrite (chat_completions_accepted settings vault_agent entropy now
                     request _ _ _ Hs Ha).
Qed.

(** X9: the whole way through.  With the configured key as bearer
    credential, a request that does not stream and that the adapter
    accepts, and an agent that ends with a result, the endpoint answers 200
    with one choice whose content is the agent's output, the request's
    model echoed, the clock's time, and the agent's token counts, a missing
    one counted as zero. *)
Theorem successful_completion :
  forall (float : Type) (settings : Settings) (vault_agent : Agent)
         (entropy : N) (now : Z) (request : ChatCompletionRequest float)
         (tr : list Event) (prompt : string) (history : list ModelMessage)
         (result : AgentRunResult),
    api_key settings <> "" ->
    stream request = false ->
    openai_messages_to_pydantic (messages request) = (tr, ok (prompt, history)) ->
    vault_agent prompt history {| vault_path := obsidian_vault_path settings |}
    = ok (Some result) ->
    let run :=
      post_chat_completions settings vault_agent entropy now
        (Some ("Bearer " ++ api_key settings)%string) request in
    status_of run = 200%Z
    /\ exists response : ChatCompletionResponse,
         outcome run = ok response
         /\ choices response = [mkChoice (mkResponseMessage (data result))]
         /\ resp_model response = model request
         /\ created response = now
         /\ usage response
            = {| prompt_tokens := count_or_zero (request_tokens (run_usage result));
                 completion_tokens := count_or_zero (response_tokens (run_usage result));
                 total_tokens := count_or_zero (usage_total_tokens (run_usage result)) |}.
Proof.
  intros float settings vault_agent entropy now request tr prompt history result
    Hk Hs Ha Hr run. subst run.
  rewrite (endpoint_run _ _ _ _ _ _ _ (HTTPBearer_token _ Hk)).
  cbn [credentials]. rewrite String.eqb_refl.
  rewrite (chat_completions_accepted settings vault_agent entropy now request
             _ _ _ Hs Ha), Hr.
  split; [reflexivity|]. eexists. split; [reflexivity|].
  cbn [build_chat_response mkChatCompletionResponse choices resp_model created usage].
  rewrite !or_zero_spec. repeat split.
Qed.

Lemma successful_completion_witness :
  let settings := {| obsidian_vault_path := "/vault"; api_key := "test-secret-key" |} in
  let result :=
    {| data := "Mocked agent response";
       run_usage := {| request_tokens := Some 10%Z; response_tokens := None;
                       usage_total_tokens := Some 15%Z |} |} in
  let vault_agent : Agent := fun _ _ _ => ok (Some result) in
  let request : ChatCompletionRequest nat :=
    {| model := "paddy";
       messages := [{| role := user; content := Str "Hello" |}];
       stream := false;
       temperature := None; max_tokens := None; top_p := None;
       frequency_penalty := None |} in
  let run :=
    post_chat_completions settings vault_agent 7 1700000000
      (Some "Bearer test-secret-key") request in
  api_key settings <> ""
  /\ stream request = false
  /\ status_of run = 200%Z
  /\ exists response : ChatCompletionResponse,
       outcome run = ok response
       /\ choices response = [mkChoice (mkResponseMessage "Mocked agent response")]
       /\ resp_model response = "paddy"
       /\ created response = 1700000000%Z
       /\ usage response
          = {| prompt_tokens := 10; completion_tokens := 0; total_tokens := 15 |}.
Proof.
  intros settings result vault_agent request run.
  assert (Hk : api_key settings <> "") by discriminate.
  assert (Hs : stream request = false) by reflexivity.
  split; [exact Hk|]. split; [exact Hs|].
  exact (successful_completion nat settings vault_agent 7 1700000000 request
           [converted_log 1 0 0] "Hello" [] result Hk Hs eq_refl eq_refl).
Defined.

Lemma status_codes_of_handler {float : Type} (settings : Settings)
    (vault_agent : Agent) (entropy : N) (now : Z)
    (request : ChatCompletionRequest float) :
  let status := status_of (chat_completions settings vault_agent entropy now request) in
  status = 200%Z \/ status = 400%Z \/ status = 500%Z.
Proof.
  destruct (chat_completions_cases settings vault_agent entropy now request)
    as [(_ & ->)|[(_ & msg & _ & ->)|(_ & prompt & history & skipped & _ & ->)]].
  - right. now left.
  - right. now left.
  - unfold after_agent.
    destruct (vault_agent _ _ _) as [e|[r|]]; cbn; auto.
Qed.


Lemma calls_spec {float : Type} (settings : Settings) (vault_agent : Agent)
    (entropy : N) (now : Z) (request : ChatCompletionRequest float) :
  calls (chat_completions settings vault_agent entropy now request)
  = expected_calls settings request.
Proof.
  unfold expected_calls.
  destruct (chat_completions_cases settings vault_agent entropy now request)
    as [(Hs & ->)|[(Hs & msg & Ha & ->)|(Hs & prompt & history & skipped & Ha & ->)]];
    rewrite Hs; [reflexivity|now rewrite Ha|].
  cbv zeta in Ha. rewrite Ha. unfold calls, after_agent. cbn [events fst outcome snd ok].
  destruct (vault_agent _ _ _) as [e|[r|]]; reflexivity.
Qed.

(** X11: a run of the route body calls the adapter at most once and the
    agent at most once, the agent only after the adapter has returned: no
    call for a streaming request, the adapter alone when it raises, the
    adapter and then the agent otherwise.  The agent is not called again
    when it fails. *)
Theorem calls_of_the_route :
  forall (float : Type) (settings : Settings) (vault_agent : Agent)
         (entropy : N) (now : Z) (request : ChatCompletionRequest float),
    let run := chat_completions settings vault_agent entropy now request in
    calls run = expected_calls settings request
    /\ (List.length (agent_calls run) <= 1)%nat
    /\ (agent_calls run <> []
        <-> stream request = false /\ rejected (messages request) = false).
Proof.
  intros float settings vault_agent entropy now request run. subst run.
  split; [apply calls_spec|].
  rewrite agent_calls_spec. unfold expected_agent_calls.
  destruct (stream request).
  { split; [cbn; lia|]. split; [now intros H|intros [H _]; discriminate]. }
  pose proof (adapter_outcome (messages request)) as [_ Hret].
  destruct (outcome (openai_messages_to_pydantic (messages request)))
    as [e|[prompt history]]; cbn [returns] in Hret.
  - split; [cbn; lia|]. split; [now intros H|].
    intros [_ H]. rewrite H in Hret. discriminate.
  - split; [cbn; lia|]. split; [|discriminate].
    intros _. split; [reflexivity|]. now destruct (rejected (messages request)).
Qed.

(** X12: a request that fails authentication leaves nothing behind: when
    the endpoint answers 401 or 403, no record has been logged and nothing
    has been called. *)
Theorem failed_authentication_leaves_no_trace :
  forall (float : Type) (settings : Settings) (vault_agent : Agent)
         (entropy : N) (now : Z) (request : ChatCompletionRequest float)
         (authorization : option string),
    let run :=
      post_chat_completions settings vault_agent entropy now authorization request in
    status_of run = 401%Z \/ status_of run = 403%Z ->
    events run = [].
Proof.
  intros float settings vault_agent entropy now request authorization run H.
  subst run.
  destruct (HTTPBearer_cases authorization) as [(detail & Hb)|(bearer & Hb & _)].
  - unfold post_chat_completions. now rewrite Hb.
  - rewrite (endpoint_run _ _ _ _ _ _ _ Hb) in *.
    destruct (credentials bearer =? api_key settings)%string; [|reflexivity].
    destruct (status_codes_of_handler settings vault_agent entropy now request)
      as [E|[E|E]]; rewrite E in H; destruct H; discriminate.
Qed.

Lemma failed_authentication_leaves_no_trace_witness :
  let settings := {| obsidian_vault_path := "/vault"; api_key := "test-secret-key" |} in
  let vault_agent : Agent := fun _ _ _ => ok None in
  let request : ChatCompletionRequest nat :=
    {| model := "paddy";
       messages := [{| role := user; content := Str "Hello" |}];
       stream := false;
       temperature := None; max_tokens := None; top_p := None;
       frequency_penalty := None |} in
  let run :=
    post_chat_completions settings vault_agent 0 0 (Some "Bearer wrong-key") request in
  (status_of run = 401%Z \/ status_of run = 403%Z) /\ events run = [].
Proof.
  intros settings vault_agent request run.
  assert (H : status_of run = 401%Z \/ status_of run = 403%Z) by (left; reflexivity).
  split; [exact H|].
  exact (failed_authentication_leaves_no_trace nat settings vault_agent 0 0 request
           (Some "Bearer wrong-key") H).
Defined.

(** X13: with the default, empty [api_key] nobody gets in: the bearer
    scheme refuses an empty credential and [verify_api_key] refuses every
    other, so the endpoint answers 401 or 403 to every request and never
    reaches the route body. *)
Theorem empty_api_key_admits_nobody :
  forall (float : Type) (settings : Settings) (vault_agent : Agent)
         (entropy : N) (now : Z) (request : ChatCompletionRequest float)
         (authorization : option string),
    api_key settings = "" ->
    let run :=
      post_chat_completions settings vault_agent entropy now authorization request in
    (status_of run = 401%Z \/ status_of run = 403%Z) /\ events run = [].
Proof.
  intros float settings vault_agent entropy now request authorization Hk run.
  subst run.
  destruct (HTTPBearer_cases authorization) as [(detail & Hb)|(bearer & Hb & Hne)].
  - unfold post_chat_completions. rewrite Hb. split; [now right|reflexivity].
  - rewrite (endpoint_run _ _ _ _ _ _ _ Hb), Hk.
    apply String.eqb_neq in Hne. rewrite Hne. split; [now left|reflexivity].
Qed.

Lemma empty_api_key_admits_nobody_witness :
  let settings := AppConfig.route_settings AppConfig.defaults in
  let vault_agent : Agent := fun _ _ _ => ok None in
  let request : ChatCompletionRequest nat :=
    {| model := "paddy";
       messages := [{| role := user; content := Str "Hello" |}];
       stream := false;
       temperature := None; max_tokens := None; top_p := None;
       frequency_penalty := None |} in
  let run := post_chat_completions settings vault_agent 0 0 (Some "Bearer ") request in
  api_key settings = ""
  /\ (status_of run = 401%Z \/ status_of run = 403%Z) /\ events run = [].
Proof.
  intros settings vault_agent request run.
  assert (H : api_key settings = "") by reflexivity.
  split; [exact H|].
  exact (empty_api_key_admits_nobody nat settings vault_agent 0 0 request
           (Some "Bearer ") H).
Defined.

(** X14: the route logs at error level in one case only, when the agent
    invocation raises; a request it refuses with 400 and an agent that
    ends without a result leave no error record. *)
Theorem error_log_only_when_agent_raises :
  forall (float : Type) (settings : Settings) (vault_agent : Agent)
         (entropy : N) (now : Z) (request : ChatCompletionRequest float),
    existsb is_error_log
      (events (chat_completions settings vault_agent entropy now request)) = true
    <-> exists prompt history e,
          stream request = false
          /\ outcome (openai_messages_to_pydantic (messages request))
             = ok (prompt, history)
          /\ vault_agent prompt history {| vault_path := obsidian_vault_path settings |}
             = throw e.
Proof.
  intros float settings vault_agent entropy now request.
  destruct (chat_completions_cases settings vault_agent entropy now request)
    as [(Hs & ->)|[(Hs & msg & Ha & ->)|(Hs & prompt & history & skipped & Ha & ->)]].
  - split; [discriminate|]. intros (p & h & e & Hs' & _). congruence.
  - split; [discriminate|]. intros (p & h & e & _ & Ha' & _).
    rewrite Ha in Ha'. discriminate.
  - cbv zeta in Ha. rewrite Ha. cbn [outcome snd events fst].
    rewrite existsb_app. cbn [existsb is_error_log received_log converted_log
                               started_log String.eqb Ascii.eqb Bool.eqb orb].
    unfold after_agent.
    destruct (vault_agent prompt history _) as [e|[r|]] eqn:Hagent; cbn.
    + split; [|reflexivity]. intros _. now exists prompt, history, e.
    + split; [discriminate|]. intros (p & h & e & _ & Ha' & Hr).
      injection Ha' as <- <-. rewrite Hagent in Hr. discriminate.
    + split; [discriminate|]. intros (p & h & e & _ & Ha' & Hr).
      injection Ha' as <- <-. rewrite Hagent in Hr. discriminate.
Qed.

(** ** The ping tool *)

(** X15: the ping tool reports the vault path of the settings.  Whenever a
    run of the route calls the agent, the tool run on the dependencies of
    that call answers with the configured [obsidian_vault_path]; and two
    answers of the tool are equal only for equal vault paths. *)
Theorem ping_reports_the_configured_vault :
  forall (float : Type) (settings : Settings) (vault_agent : Agent)
         (entropy : N) (now : Z) (request : ChatCompletionRequest float),
    (forall (prompt : string) (history : list ModelMessage) (d : VaultDependencies),
        In (AgentCalled prompt history d)
           (events (chat_completions settings vault_agent entropy now request)) ->
        Ping.ping {| Ping.deps := d |}
        = ("Paddy is connected. Vault path: " ++ obsidian_vault_path settings)%string)
    /\ (forall ctx1 ctx2 : Ping.RunContext,
          Ping.ping ctx1 = Ping.ping ctx2 ->
          vault_path (Ping.deps ctx1) = vault_path (Ping.deps ctx2)).
Proof.
  intros float settings vault_agent entropy now request. split.
  - intros prompt history d Hin.
    assert (Hc : In (AgentCalled prompt history d)
                    (agent_calls (chat_completions settings vault_agent entropy now
                                    request))).
    { unfold agent_calls. apply filter_In. now split. }
    rewrite agent_calls_spec in Hc. unfold expected_agent_calls in Hc.
    destruct (stream request); [contradiction|].
    destruct (outcome (openai_messages_to_pydantic (messages request)))
      as [e|[p h]]; [contradiction|].
    destruct Hc as [Hc|[]]. injection Hc as _ _ <-. reflexivity.
  - intros ctx1 ctx2 H. unfold Ping.ping in H. now apply append_cancel_l in H.
Qed.

Lemma ping_reports_the_configured_vault_witness :
  let settings := {| obsidian_vault_path := "/vault"; api_key := "k" |} in
  let vault_agent : Agent := fun _ _ _ => ok None in
  let request : ChatCompletionRequest nat :=
    {| model := "paddy";
       messages := [{| role := user; content := Str "ping" |}];
       stream := false;
       temperature := None; max_tokens := None; top_p := None;
       frequency_penalty := None |} in
  In (AgentCalled "ping" [] {| vault_path := "/vault" |})
     (events (chat_completions settings vault_agent 0 0 request))
  /\ Ping.ping {| Ping.deps := {| vault_path := "/vault" |} |}
     = "Paddy is connected. Vault path: /vault".
Proof.
  intros settings vault_agent request.
  assert (H : In (AgentCalled "ping" [] {| vault_path := "/vault" |})
                 (events (chat_completions settings vault_agent 0 0 request))).
  { cbn. auto 8. }
  split; [exact H|].
  exact (proj1 (ping_reports_the_configured_vault nat settings vault_agent 0 0 request)
           _ _ _ H).
Defined.

(** ** Registering the exception handler *)

Import ExceptionSetup.

Lemma class_eqb_refl (cls : ExcClass) : class_eqb cls cls = true.
Proof.
  induction cls as [| | | |name base IH]; cbn; try reflexivity.
  now rewrite String.eqb_refl, IH.
Qed.





(** ** Settings *)

Import AppConfig.

Lemma provider_model_inj (p1 p2 m1 m2 : string) :
  no_colon p1 = true -> no_colon p2 = true ->
  (p1 ++ ":" ++ m1)%string = (p2 ++ ":" ++ m2)%string ->
  p1 = p2 /\ m1 = m2.
Proof.
  revert p2. induction p1 as [|c1 p1 IH]; intros [|c2 p2] H1 H2 E;
    cbn [append no_colon] in *.
  - injection E as E. now split.
  - injection E as Ec _. subst c2. cbn in H2. discriminate.
  - injection E as Ec _. subst c1. cbn in H1. discriminate.
  - injection E as Ec E. subst c2.
    apply andb_true_iff in H1 as [_ H1]. apply andb_true_iff in H2 as [_ H2].
    destruct (IH _ H1 H2 E) as [-> ->]. now split.
Qed.

(** X17: [model_name] is unambiguous: two settings whose providers hold no
    colon and whose [model_name] agree have the same provider and the same
    model. *)
Theorem model_name_determines_provider_and_model :
  forall s1 s2 : AppSettings,
    no_colon (llm_provider s1) = true ->
    no_colon (llm_provider s2) = true ->
    model_name s1 = model_name s2 ->
    llm_provider s1 = llm_provider s2 /\ llm_model s1 = llm_model s2.
Proof.
  intros s1 s2 H1 H2 E. unfold model_name in E.
  now apply provider_model_inj.
Qed.

Lemma model_name_determines_provider_and_model_witness :
  let s1 := defaults in
  let s2 :=
    {| app_name := "Test App"; version := "1.0.0"; environment := "production";
       log_level := "DEBUG"; llm_provider := "openai"; llm_model := "gpt-4.1-nano";
       llm_api_key := "sk"; obsidian_vault_path := "/Users/test-vault";
       api_key := "k"; allowed_origins := [] |} in
  no_colon (llm_provider s1) = true
  /\ no_colon (llm_provider s2) = true
  /\ model_name s1 = model_name s2
  /\ llm_provider s1 = llm_provider s2 /\ llm_model s1 = llm_model s2.
Proof.
  intros s1 s2.
  assert (H1 : no_colon (llm_provider s1) = true) by reflexivity.
  assert (H2 : no_colon (llm_provider s2) = true) by reflexivity.
  assert (E : model_name s1 = model_name s2) by reflexivity.
  split; [exact H1|]. split; [exact H2|]. split; [exact E|].
  exact (model_name_determines_provider_and_model s1 s2 H1 H2 E).
Defined.

Lemma get_settings_each_cached {Env : Type} (load : Env -> AppSettings)
    (envs : list Env) (instance : AppSettings) :
  get_settings_each Env load envs (Some instance)
  = (repeat instance (List.length envs), Some instance).
Proof.
  induction envs as [|env envs IH]; [reflexivity|].
  cbn [get_settings_each get_settings List.length repeat]. now rewrite IH.
Qed.

(** X18: [get_settings] builds the settings once.  Every call after the
    first returns the instance of the first call, whatever the environment
    has become since, and leaves the cache as it is; only [cache_clear]
    makes the next call read the environment again. *)
Theorem get_settings_is_cached :
  forall (Env : Type) (load : Env -> AppSettings) (first : Env) (later : list Env),
    get_settings_each Env load (first :: later) None
    = (repeat (load first) (S (List.length later)), Some (load first))
    /\ forall (after_clear : Env),
         fst (get_settings Env load after_clear
                (cache_clear (snd (get_settings_each Env load (first :: later) None))))
         = load after_clear.
Proof.
  intros Env load first later. split.
  - cbn [get_settings_each get_settings]. now rewrite get_settings_each_cached.
  - intros after_clear. reflexivity.
Qed.
